(** * aicspylibczi: the CziFile accessor layer

    A shallow embedding of [aicspylibczi/CziFile.py].  The class is a thin
    wrapper around the compiled module [_aicspylibczi] (the native reader,
    [DimCoord], [IntRect]), the file system and [lxml.etree].  None of
    those is part of the module: their answers are parameters ([Reader],
    [Env]); every call the wrapper makes on them is recorded, in order, in
    a trace, so that "which calls were made, and in which order" is a
    statement about the embedding. *)

From Stdlib Require Import ZArith Ascii.
From Stdlib Require Import Floats.PrimFloat Floats.SpecFloat Floats.FloatOps.
From stdpp Require Import gmap strings list fin_maps.

Local Open Scope Z_scope.

(** ** Exceptions and outcomes *)

(** The exceptions the module raises itself, and those it only lets
    through: what resolving a path can raise besides [FileNotFoundError]
    ([NotADirectoryError], [RuntimeError], [ValueError], another [OSError]),
    another [OSError] of the builtin [open], and whatever the native module
    or lxml throws. *)
Inductive exn : Type :=
  | FileNotFoundError
  | IsADirectoryError
  | NotADirectoryError
  | RuntimeError
  | ValueError
  | TypeError
  | AssertionError
  | OSError
  | PylibCZI_CDimCoordinatesOverspecifiedException
  | NativeException (what : string).

Inductive result (A : Type) : Type :=
  | Ok (a : A)
  | Raise (e : exn).
Arguments Ok {A} a.
Arguments Raise {A} e.

Definition result_map {A B} (f : A → B) (r : result A) : result B :=
  match r with
  | Ok a => Ok (f a)
  | Raise e => Raise e
  end.

(** ** A state and exception monad

    [M S A]: a computation over a store [S] that returns an [A] or raises.
    What was done to the store before a raise stays done, as in Python. *)
Definition M (S A : Type) : Type := S → result A * S.

Global Instance M_ret {S} : MRet (M S) := λ A a s, (Ok a, s).

Global Instance M_bind {S} : MBind (M S) := λ A B f m s,
  match m s with
  | (Ok a, s') => f a s'
  | (Raise e, s') => (Raise e, s')
  end.

Definition raise {S A} (e : exn) : M S A := λ s, (Raise e, s).

(** A result that is already known ([Ok] or [Raise]) as a computation. *)
Definition lift_result {S A} (r : result A) : M S A := λ s, (r, s).

Definition modify {S} (f : S → S) : M S unit := λ s, (Ok tt, f s).

Definition gets {S A} (f : S → A) : M S A := λ s, (Ok (f s), s).

(** ** Data of the native module *)

Module Native.

(** [libCZI::IntRect]: four attributes, each a C [int] of 32 bits.  A
    rectangle the native side hands out holds what the native side put in
    it; what Python puts in one goes through [assign] below. *)
Record IntRect : Type := mkIntRect { x : Z; y : Z; w : Z; h : Z }.

(** The values a C [int] holds. *)
Definition is_int32 (v : Z) : bool := bool_decide (- 2 ^ 31 ≤ v < 2 ^ 31).

Definition set_x (v : Z) (r : IntRect) : IntRect := mkIntRect v (y r) (w r) (h r).
Definition set_y (v : Z) (r : IntRect) : IntRect := mkIntRect (x r) v (w r) (h r).
Definition set_w (v : Z) (r : IntRect) : IntRect := mkIntRect (x r) (y r) v (h r).
Definition set_h (v : Z) (r : IntRect) : IntRect := mkIntRect (x r) (y r) (w r) v.

(** [rect.field = v] from Python: the binding converts [v] to a C [int] and
    refuses, with [TypeError], an integer that does not fit. *)
Definition assign (field : Z → IntRect → IntRect) (v : Z) (r : IntRect)
    : result IntRect :=
  if is_int32 v then Ok (field v r) else Raise TypeError.

(** Modelled from the spec: the native [DimCoord] ("Dimension Coordinate": a
    sparse mapping from axis symbol to a signed integer index; construct
    empty; [set(axis, value)]).  [set_dim] is [insert]. *)
Abbreviation DimCoord := (gmap string Z).

(** A numpy array, as far as the wrapper can tell arrays apart. *)
Record ndarray : Type := mkNdarray { nd_shape : list Z; nd_data : list Z }.

(** The shape descriptor returned with an image: [(dimension, size)] pairs. *)
Abbreviation ShapeDescriptor := (list (string * Z)).

(** The native reader object, [_aicspylibczi.Reader]: one field per method
    the wrapper calls, holding what the call answers.  The container is
    read-only, so a method's answer depends on its arguments alone. *)
Record Reader : Type := mkReader {
  read_dims_string : result string;
  read_dims : result (list (string * Z));
  read_dims_sizes : result (list Z);
  read_scene_wh : Z → result IntRect;
  is_mosaic : result bool;
  read_meta : result string;
  read_meta_from_subblock : DimCoord → Z → result (list string);
  read_selected : DimCoord → Z → result (ndarray * ShapeDescriptor);
  mosaic_shape : result IntRect;
  read_mosaic : DimCoord → float → IntRect → result ndarray;
}.

End Native.
Import Native.

(** ** Python values at the boundary *)

(** A binary stream: the [io.BufferedReader] of a file, or an [io.BytesIO]. *)
Inductive BinaryIO : Type :=
  | BufferedReader (name : string)
  | BytesIO (data : list Byte.byte).

(** [Union[BinaryIO, np.ndarray]], the return type of [convert_to_buffer]. *)
Inductive buffer : Type :=
  | Stream (s : BinaryIO)
  | Array (a : ndarray).

(** The argument of the constructor, by its runtime class: the classes the
    [isinstance] chain of [convert_to_buffer] tells apart, and any other. *)
Inductive FileLike : Type :=
  | PyStr (s : string)
  | PyPath (p : string)
  | PyBytes (b : list Byte.byte)
  | PyBytesIO (data : list Byte.byte)
  | PyBufferedReader (name : string)
  | PyNdarray (a : ndarray)
  | PyOther (class_name : string).

(** lxml: a parsed XML tree, and an element object (a tree with the identity
    of the Python object that holds it). *)
#[warnings="-register-all"]
Inductive xml : Type :=
  | XmlElem (tag : string) (attrib : list (string * string))
            (text : string) (children : list xml) (tail : string).

Record Element : Type := mkElement { el_id : nat; el_xml : xml }.

Definition xml_children (t : xml) : list xml :=
  match t with XmlElem _ _ _ cs _ => cs end.

(** [bool(element)] in lxml ([_Element.__bool__]): an element is true when it
    has children, and false when it has none, whatever its text. *)
Definition element_bool (e : Element) : bool :=
  match xml_children (el_xml e) with
  | [] => false
  | _ :: _ => true
  end.

(** ** The world outside the object *)

(** The calls the wrapper makes on the native module, on the builtin
    [open] and on lxml, with their arguments. *)
Inductive event : Type :=
  | EvOpen (path : string) (mode : string)
  | EvWrite (path : string) (text : string)
  | EvReaderNew (b : buffer)
  | EvDimCoordNew
  | EvSetDim (k : string) (v : Z)
  | EvIntRectNew
  | EvIsMosaic
  | EvReadDimsString
  | EvReadDims
  | EvReadDimsSizes
  | EvReadSceneWh (index : Z)
  | EvReadMeta
  | EvReadMetaFromSubblock (pc : DimCoord) (m_index : Z)
  | EvReadSelected (pc : DimCoord) (m_index : Z)
  | EvMosaicShape
  | EvReadMosaic (pc : DimCoord) (scale_factor : float) (region : IntRect)
  | EvFromString (s : string).

(** The store outside the object: the calls made so far (latest first), the
    text files written, and the next free object identity. *)
Record World : Type := mkWorld {
  trace : list event;
  files : gmap string string;
  next_id : nat;
}.

Definition log_world (ev : event) (wd : World) : World :=
  mkWorld (ev :: trace wd) (files wd) (next_id wd).

(** What the environment answers: the file system, the constructors of the
    native module, and lxml's parser and serializer. *)
Record Env : Type := mkEnv {
  (** [Path(p).expanduser().resolve(strict=True)]: the resolved path, or the
      error raised ([FileNotFoundError] when the path does not exist, and
      whatever else pathlib raises: [NotADirectoryError], [RuntimeError],
      [ValueError], another [OSError]). *)
  fs_resolve : string → result string;
  (** [f.is_dir()] *)
  fs_is_dir : string → bool;
  (** whether [open(f, "rb")] succeeds *)
  fs_readable : string → bool;
  (** whether [open(f, "w")] succeeds *)
  fs_writable : string → bool;
  (** [_aicspylibczi.Reader(buffer)] *)
  czilib_Reader : buffer → result Reader;
  (** the attributes of a fresh [_aicspylibczi.IntRect()] *)
  czilib_IntRect : IntRect;
  (** [etree.fromstring] *)
  etree_fromstring : string → result xml;
  (** [etree.tostring(root, pretty_print=True).decode('utf-8')] *)
  etree_tostring_pretty : xml → string;
}.

(** ** The class *)

Module CziFile.

(** The attributes of a [CziFile] object. *)
Record obj : Type := mkObj {
  _bytes : buffer;
  czi_filename : option string;
  metafile_out : string;
  czifile_verbose : bool;
  reader : Reader;
  meta_root : option Element;
}.

Definition set_meta_root (v : option Element) (o : obj) : obj :=
  mkObj (_bytes o) (czi_filename o) (metafile_out o) (czifile_verbose o) (reader o) v.

(** A method runs on the object and the world. *)
Record Heap : Type := mkHeap { self : obj; world : World }.

Definition ZISRAW_DIMS : gset string :=
  {[ "Z"; "C"; "T"; "R"; "S"; "I"; "H"; "V"; "B" ]}.

Section WithEnv.

Variable env : Env.

(** *** Opening *)

Definition log (ev : event) : M World unit := modify (log_world ev).

(** The builtin [open(f, "rb")]. *)
Definition open_rb (f : string) : M World buffer :=
  log (EvOpen f "rb");;
  if fs_readable env f then mret (Stream (BufferedReader f)) else raise OSError.

Definition resolve_strict (p : string) : M World string :=
  lift_result (fs_resolve env p).

Definition convert_to_buffer (file : FileLike) : M World buffer :=
  match file with
  | PyStr p | PyPath p =>
      f ← resolve_strict p;
      if fs_is_dir env f then raise IsADirectoryError
      else open_rb f
  | PyBytes b => mret (Stream (BytesIO b))
  | PyBytesIO data => mret (Stream (BytesIO data))
  | PyBufferedReader name => mret (Stream (BufferedReader name))
  | PyNdarray a => mret (Array a)
  | PyOther _ => raise TypeError
  end.

Definition new_Reader (b : buffer) : M World Reader :=
  log (EvReaderNew b);;
  lift_result (czilib_Reader env b).

Definition __init__ (czi_filename : FileLike) (metafile_out : string)
    (verbose : bool) : M World obj :=
  bytes ← convert_to_buffer czi_filename;
  rd ← new_Reader bytes;
  mret (mkObj bytes None metafile_out verbose rd None).

(** *** Calls on the native module from a method *)

Definition log_call (ev : event) : M Heap unit :=
  modify (λ hp, mkHeap (self hp) (log_world ev (world hp))).

(** [self.reader.method(args)]: the call is recorded, the reader answers. *)
Definition call {A} (ev : event) (method : Reader → result A) : M Heap A :=
  log_call ev;;
  rd ← gets (reader ∘ self);
  lift_result (method rd).

Definition new_DimCoord : M Heap DimCoord :=
  log_call EvDimCoordNew;; mret (∅ : DimCoord).

Definition set_dim (k : string) (v : Z) (pc : DimCoord) : M Heap DimCoord :=
  log_call (EvSetDim k v);; mret (<[k:=v]> pc).

Definition new_IntRect : M Heap IntRect :=
  log_call EvIntRectNew;; mret (czilib_IntRect env).

(** *** Accessors *)

Definition dims : M Heap string := call EvReadDimsString read_dims_string.

Definition dims_shape : M Heap (list (string * Z)) := call EvReadDims read_dims.

Definition scene_bounding_box (index : option Z) : M Heap (Z * Z * Z * Z) :=
  let index := default (-1) index in
  bbox ← call (EvReadSceneWh index) (λ rd, read_scene_wh rd index);
  let ans := (x bbox, y bbox, w bbox, h bbox) in
  mret ans.

Definition scene_height_by_width (index : option Z) : M Heap (Z * Z) :=
  let index := default (-1) index in
  box ← call (EvReadSceneWh index) (λ rd, read_scene_wh rd index);
  mret (h box, w box).

Definition size : M Heap (list Z) := call EvReadDimsSizes read_dims_sizes.

Definition is_mosaic : M Heap bool := call EvIsMosaic Native.is_mosaic.

(** *** Metadata *)

(** [not self.meta_root]: [None] is false, an element has lxml's truth value. *)
Definition py_not (root : option Element) : bool :=
  match root with
  | None => true
  | Some e => negb (element_bool e)
  end.

(** [etree.fromstring(s)]: a new element object for the parsed tree. *)
Definition fromstring (s : string) : M Heap Element :=
  log_call (EvFromString s);;
  t ← lift_result (etree_fromstring env s);
  id ← gets (next_id ∘ world);
  modify (λ hp, mkHeap (self hp)
                  (mkWorld (trace (world hp)) (files (world hp)) (S id)));;
  mret (mkElement id t).

(** [etree.tostring(root, pretty_print=True).decode('utf-8')] *)
Definition tostring_pretty (root : option Element) : M Heap string :=
  match root with
  | Some e => mret (etree_tostring_pretty env (el_xml e))
  | None => raise TypeError
  end.

(** [with open(path, 'w') as file: file.write(text)] *)
Definition write_text (path text : string) : M Heap unit :=
  log_call (EvOpen path "w");;
  if fs_writable env path then
    log_call (EvWrite path text);;
    modify (λ hp, mkHeap (self hp)
                    (mkWorld (trace (world hp)) (<[path:=text]> (files (world hp)))
                             (next_id (world hp))))
  else raise OSError.

(** The property [meta].  [if self.metafile_out:] is the truth value of a
    string: true when it is not empty. *)
Definition meta : M Heap (option Element) :=
  root ← gets (meta_root ∘ self);
  (if py_not root then
     meta_str ← call EvReadMeta read_meta;
     e ← fromstring meta_str;
     modify (λ hp, mkHeap (set_meta_root (Some e) (self hp)) (world hp))
   else mret tt);;
  out ← gets (metafile_out ∘ self);
  (if bool_decide (out ≠ "") then
     root ← gets (meta_root ∘ self);
     metastr ← tostring_pretty root;
     write_text out metastr
   else mret tt);;
  gets (meta_root ∘ self).

(** *** Queries *)

(** [**kwargs]: the keyword arguments in the order they were written. *)
Definition kwargs_get (k : string) (kwargs : list (string * Z)) : option Z :=
  snd <$> find (λ kv, bool_decide (kv.1 = k)) kwargs.

(** [[pc.set_dim(k, v) for (k, v) in kwargs.items() if k in ZISRAW_DIMS]] *)
Fixpoint set_dims (items : list (string * Z)) (pc : DimCoord) : M Heap DimCoord :=
  match items with
  | [] => mret pc
  | (k, v) :: items' =>
      if bool_decide (k ∈ ZISRAW_DIMS) then
        pc' ← set_dim k v pc; set_dims items' pc'
      else set_dims items' pc
  end.

Definition plane_constraints_of (kwargs : list (string * Z)) : M Heap DimCoord :=
  plane_constraints ← new_DimCoord;
  set_dims kwargs plane_constraints.

Definition _get_m_index_from_kwargs (kwargs : list (string * Z)) : M Heap Z :=
  let m_index := -1 in
  match kwargs_get "M" kwargs with
  | Some m =>
      mosaic ← is_mosaic;
      if negb mosaic then raise PylibCZI_CDimCoordinatesOverspecifiedException
      else mret m
  | None => mret m_index
  end.

Definition read_subblock_metadata (kwargs : list (string * Z)) : M Heap (list string) :=
  plane_constraints ← plane_constraints_of kwargs;
  m_index ← _get_m_index_from_kwargs kwargs;
  call (EvReadMetaFromSubblock plane_constraints m_index)
       (λ rd, read_meta_from_subblock rd plane_constraints m_index).

Definition read_image (kwargs : list (string * Z)) : M Heap (ndarray * ShapeDescriptor) :=
  plane_constraints ← plane_constraints_of kwargs;
  m_index ← _get_m_index_from_kwargs kwargs;
  '(image, shape) ← call (EvReadSelected plane_constraints m_index)
                         (λ rd, read_selected rd plane_constraints m_index);
  mret (image, shape).

Definition read_mosaic_size : M Heap IntRect :=
  mosaic ← call EvIsMosaic Native.is_mosaic;
  if negb mosaic then
    ans ← new_IntRect;
    ans ← lift_result (assign set_x 0 ans);
    ans ← lift_result (assign set_y 0 ans);
    ans ← lift_result (assign set_w (-1) ans);
    ans ← lift_result (assign set_h (-1) ans);
    mret ans
  else call EvMosaicShape mosaic_shape.

(** Python's [0.1], the default of [scale_factor]: the nearest binary64. *)
Definition default_scale_factor : float := 0x1.999999999999ap-4%float.

(** [assert cond] *)
Definition py_assert (cond : bool) : M Heap unit :=
  if cond then mret tt else raise AssertionError.

(** [region[i]], on a tuple whose length was asserted. *)
Definition item (region : list Z) (i : nat) : Z := default 0 (region !! i).

Definition read_mosaic (region : option (list Z)) (scale_factor : option float)
    (kwargs : list (string * Z)) : M Heap ndarray :=
  let scale_factor := default default_scale_factor scale_factor in
  plane_constraints ← plane_constraints_of kwargs;
  region ← match region with
           | None =>
               region ← new_IntRect;
               region ← lift_result (assign set_w (-1) region);
               region ← lift_result (assign set_h (-1) region);
               mret region
           | Some region =>
               py_assert (bool_decide (length region = 4%nat));;
               tmp ← new_IntRect;
               tmp ← lift_result (assign set_x (item region 0) tmp);
               tmp ← lift_result (assign set_y (item region 1) tmp);
               tmp ← lift_result (assign set_w (item region 2) tmp);
               tmp ← lift_result (assign set_h (item region 3) tmp);
               mret tmp
           end;
  img ← call (EvReadMosaic plane_constraints scale_factor region)
             (λ rd, Native.read_mosaic rd plane_constraints scale_factor region);
  mret img.

End WithEnv.

End CziFile.

Import CziFile.

Abbreviation Overspecified := PylibCZI_CDimCoordinatesOverspecifiedException.

(** ** What the calls of a query amount to

    Closed forms used to state the theorems: the coordinate a list of
    keyword arguments builds, and the calls on [DimCoord] that build it. *)

Definition axis_items (kwargs : list (string * Z)) : list (string * Z) :=
  filter (λ kv, kv.1 ∈ ZISRAW_DIMS) kwargs.

Definition coordinate_from (pc : DimCoord) (items : list (string * Z)) : DimCoord :=
  foldl (λ pc kv, <[kv.1:=kv.2]> pc) pc items.

Definition coordinate_of (kwargs : list (string * Z)) : DimCoord :=
  coordinate_from ∅ (axis_items kwargs).

Definition set_dim_calls (kwargs : list (string * Z)) : list event :=
  (λ kv, EvSetDim kv.1 kv.2) <$> axis_items kwargs.

(** The heap after the calls [evs] (in the order they were made). *)
Definition logged (evs : list event) (hp : Heap) : Heap :=
  mkHeap (self hp)
    (mkWorld (rev evs ++ trace (world hp)) (files (world hp)) (next_id (world hp))).

(** The calls that build the plane constraints of a query. *)
Definition constraint_calls (kwargs : list (string * Z)) : list event :=
  EvDimCoordNew :: set_dim_calls kwargs.

(** The rectangle [read_mosaic] hands to the native reader. *)
Definition requested_rect (env : Env) (region : option (list Z)) : IntRect :=
  match region with
  | None => set_h (-1) (set_w (-1) (czilib_IntRect env))
  | Some r => mkIntRect (item r 0) (item r 1) (item r 2) (item r 3)
  end.

(** A region all of whose items fit the attributes of an [IntRect]. *)
Definition all_int32 (region : list Z) : bool := forallb is_int32 region.

(** The keyword arguments without the tile index. *)
Definition without_tile_index (kwargs : list (string * Z)) : list (string * Z) :=
  filter (λ kv, kv.1 ≠ "M"%string) kwargs.

(** A call on the native reader object. *)
Definition is_reader_call (ev : event) : bool :=
  match ev with
  | EvReaderNew _ | EvIsMosaic | EvReadDimsString | EvReadDims | EvReadDimsSizes
  | EvReadSceneWh _ | EvReadMeta | EvReadMetaFromSubblock _ _
  | EvReadSelected _ _ | EvMosaicShape | EvReadMosaic _ _ _ => true
  | _ => false
  end.

(** ** Input validation, as a function of the source and the file system *)

(** The path a source names, when it is a [str] or a [Path]. *)
Definition source_path (source : FileLike) : option string :=
  match source with
  | PyStr p | PyPath p => Some p
  | _ => None
  end.

(** The error a source is rejected with, if any: a path whose resolution
    raises (that error), a path to a directory, a source of no accepted
    class. *)
Definition validation_error (env : Env) (source : FileLike) : option exn :=
  match source with
  | PyStr p | PyPath p =>
      match fs_resolve env p with
      | Raise e => Some e
      | Ok f => if fs_is_dir env f then Some IsADirectoryError else None
      end
  | PyOther _ => Some TypeError
  | _ => None
  end.

(** Whether what [convert_to_buffer] returned is a byte stream. *)
Definition is_byte_stream (b : buffer) : bool :=
  match b with
  | Stream _ => true
  | Array _ => false
  end.

(** ** The spec's words, to be compared with the code *)

(** "Modulo pretty-printing whitespace": text and tail that are blank count
    as absent. *)
Definition is_blank_char (c : ascii) : bool :=
  bool_decide (c ∈ [" "; "009"; "010"; "013"]%char).

Fixpoint is_blank (s : string) : bool :=
  match s with
  | EmptyString => true
  | String c s' => is_blank_char c && is_blank s'
  end.

Definition unblank (s : string) : string := if is_blank s then EmptyString else s.

Fixpoint strip_blank (t : xml) : xml :=
  match t with
  | XmlElem tag attrib text children tail =>
      XmlElem tag attrib (unblank text) (strip_blank <$> children) (unblank tail)
  end.

Definition same_modulo_whitespace (a b : xml) : Prop :=
  strip_blank a = strip_blank b.

(** Reading the exported file back: its text, parsed. *)
Definition parse_back (env : Env) (path : string) (wd : World) : result xml :=
  match files wd !! path with
  | Some text => etree_fromstring env text
  | None => Raise FileNotFoundError
  end.

(** lxml parses what it serialized to the same tree, up to the whitespace
    pretty-printing adds. *)
Definition lxml_round_trip (env : Env) (t : xml) : Prop :=
  ∃ t', etree_fromstring env (etree_tostring_pretty env t) = Ok t'
        ∧ same_modulo_whitespace t' t.

(** The exact value of a binary64 as a fraction [(num, den)], [den > 0];
    infinities and NaN have none. *)
Definition float_ratio (f : float) : option (Z * Z) :=
  match Prim2SF f with
  | S754_zero _ => Some (0, 1)
  | S754_finite sign m e =>
      let num := if sign then Z.neg m else Z.pos m in
      if 0 <=? e then Some (num * 2 ^ e, 1) else Some (num, 2 ^ (- e))
  | _ => None
  end.

(** Modelled from the spec: the native resampling of section 4.5, which is
    not part of the module ("output dimensions are native dimensions x
    factor").  The spec leaves the rounding to an integer open: [e] is an
    output extent of the native extent [n] when it is less than 1 away from
    [n * factor]. *)
Definition spec_scaled_to (factor : float) (n e : Z) : bool :=
  match float_ratio factor with
  | Some (num, den) => Z.abs (e * den - n * num) <? den
  | None => false
  end.

(** Modelled from the spec: the destination rectangle of the native
    [read_mosaic] (section 4.5: "default: the full mosaic bounding box"; the
    rectangle with w = h = -1 asks for it). *)
Definition spec_mosaic_destination (bbox region : IntRect) : IntRect :=
  if (w region =? -1) && (h region =? -1) then bbox else region.

(** Modelled from the spec: the output of the native [read_mosaic] (section
    4.5: "a single array of shape (1, scaled_height, scaled_width)"). *)
Definition spec_mosaic_shape (bbox : IntRect) (scale_factor : float)
    (region : IntRect) (shape : list Z) : Prop :=
  let dest := spec_mosaic_destination bbox region in
  ∃ sh sw, shape = [1; sh; sw]
           ∧ spec_scaled_to scale_factor (h dest) sh = true
           ∧ spec_scaled_to scale_factor (w dest) sw = true.

(** Modelled from the spec: a native reader that does what section 4.5
    says: whenever [read_mosaic] returns an array, the array has the shape
    above, for the mosaic bounding box the reader reports. *)
Definition spec_mosaic_contract (rd : Reader) : Prop :=
  ∀ pc scale_factor region bbox img,
    mosaic_shape rd = Ok bbox →
    Native.read_mosaic rd pc scale_factor region = Ok img →
    spec_mosaic_shape bbox scale_factor region (nd_shape img).

(** ** Concrete containers

    A small world to run the methods in: a directory with three files, a
    plain container, a mosaic, and a container whose metadata document is a
    single empty element. *)
Module Demo.

Definition newline : string := String "010" EmptyString.

(** The output extent of a native extent [n] at scale [s]: [n * s], rounded
    down. *)
Definition scaled (s : float) (n : Z) : Z :=
  match float_ratio s with
  | Some (num, den) => n * num / den
  | None => 0
  end.

Definition bbox : IntRect := mkIntRect 0 0 2000 1000.

Definition scene : IntRect := mkIntRect 10 20 475 325.

Definition meta_text : string := "<ImageDocument><Metadata/></ImageDocument>".

Definition meta_tree : xml :=
  XmlElem "ImageDocument" [] "" [XmlElem "Metadata" [] "" [] ""] "".

Definition bare_text : string := "<ImageDocument/>".

Definition bare_tree : xml := XmlElem "ImageDocument" [] "" [] "".

Definition indent (depth : nat) : string :=
  String.concat "" (replicate depth "  ").

(** Pretty-printing of a tree of tags: one element per line, children
    indented by two spaces. *)
Fixpoint pretty (depth : nat) (t : xml) : string :=
  match t with
  | XmlElem tag _ _ [] _ =>
      indent depth +:+ "<" +:+ tag +:+ "/>" +:+ newline
  | XmlElem tag _ _ children _ =>
      indent depth +:+ "<" +:+ tag +:+ ">" +:+ newline
      +:+ String.concat "" (pretty (S depth) <$> children)
      +:+ indent depth +:+ "</" +:+ tag +:+ ">" +:+ newline
  end.

(** What lxml parses [pretty 0 meta_tree] to: the added line breaks and
    indentation show up as text and tail. *)
Definition meta_tree_reparsed : xml :=
  XmlElem "ImageDocument" [] (newline +:+ "  ")
    [XmlElem "Metadata" [] "" [] newline] "".

Definition parse (s : string) : result xml :=
  if bool_decide (s = meta_text) then Ok meta_tree
  else if bool_decide (s = pretty 0 meta_tree) then Ok meta_tree_reparsed
  else if bool_decide (s = bare_text) then Ok bare_tree
  else if bool_decide (s = pretty 0 bare_tree) then Ok bare_tree
  else Raise (NativeException "XMLSyntaxError").

(** A reader over a container with one scene. *)
Definition a_reader (mosaic : bool) (metadata : string) : Reader := {|
  read_dims_string := Ok "STCZYX";
  read_dims := Ok [("S", 1); ("T", 1); ("C", 2); ("Z", 25); ("Y", 325); ("X", 475)];
  read_dims_sizes := Ok [1; 1; 2; 25; 325; 475];
  read_scene_wh := λ index,
    if bool_decide (index = -1 ∨ index = 0) then Ok scene
    else Raise (NativeException "CDimCoordinatesOverspecifiedException");
  Native.is_mosaic := Ok mosaic;
  read_meta := Ok metadata;
  read_meta_from_subblock := λ _ _, Ok ["<METADATA/>"%string];
  read_selected := λ _ _,
    Ok (mkNdarray [1; 1; 2; 25; 325; 475] [],
        [("S", 1); ("T", 1); ("C", 2); ("Z", 25); ("Y", 325); ("X", 475)]);
  mosaic_shape := Ok bbox;
  Native.read_mosaic := λ _ scale_factor region,
    let dest := spec_mosaic_destination bbox region in
    match float_ratio scale_factor with
    | Some _ =>
        Ok (mkNdarray [1; scaled scale_factor (h dest); scaled scale_factor (w dest)] [])
    | None => Raise (NativeException "RegionSelectionException")
    end;
|}.

Definition plain_reader : Reader := a_reader false meta_text.
Definition mosaic_reader : Reader := a_reader true meta_text.
Definition bare_reader : Reader := a_reader false bare_text.

Definition env : Env := {|
  fs_resolve := λ p,
    if bool_decide (p ∈ ["/data"; "/data/plain.czi"; "/data/mosaic.czi";
                         "/data/bare.czi"]%string)
    then Ok p
    else if bool_decide (p = "/data/plain.czi/x"%string) then Raise NotADirectoryError
    else Raise FileNotFoundError;
  fs_is_dir := λ f, bool_decide (f = "/data"%string);
  fs_readable := λ f, bool_decide (f ≠ "/data"%string);
  fs_writable := λ f, bool_decide (f = "/tmp/meta.xml"%string);
  czilib_Reader := λ b,
    match b with
    | Stream (BufferedReader "/data/plain.czi") => Ok plain_reader
    | Stream (BufferedReader "/data/mosaic.czi") => Ok mosaic_reader
    | Stream (BufferedReader "/data/bare.czi") => Ok bare_reader
    | _ => Raise (NativeException "FilePtrException")
    end;
  czilib_IntRect := mkIntRect 0 0 0 0;
  etree_fromstring := parse;
  etree_tostring_pretty := pretty 0;
|}.

Definition fresh_world : World := mkWorld [] ∅ 0.

Definition open_with (rd : Reader) (name metafile_out : string) : Heap :=
  mkHeap (mkObj (Stream (BufferedReader name)) None metafile_out false rd None)
         fresh_world.

Definition plain_czi : Heap := open_with plain_reader "/data/plain.czi" "".
Definition mosaic_czi : Heap := open_with mosaic_reader "/data/mosaic.czi" "".
Definition bare_czi : Heap := open_with bare_reader "/data/bare.czi" "".
Definition exporting_czi : Heap :=
  open_with plain_reader "/data/plain.czi" "/tmp/meta.xml".

Definition an_array : ndarray := mkNdarray [2; 2] [1; 2; 3; 4].

End Demo.

(** ** Methods that only read *)

(** [hp'] differs from [hp] by calls added to the trace at most: the object
    has the same attributes, the files and the next identity are the same. *)
Definition only_calls_added (hp hp' : Heap) : Prop :=
  self hp' = self hp
  ∧ files (world hp') = files (world hp)
  ∧ next_id (world hp') = next_id (world hp)
  ∧ ∃ evs, trace (world hp') = evs ++ trace (world hp).

Definition read_only {A} (m : M Heap A) : Prop :=
  ∀ hp, only_calls_added hp (snd (m hp)).

(** A call that loads the metadata document: reading it or parsing it. *)
Definition is_load_call (ev : event) : bool :=
  match ev with
  | EvReadMeta | EvFromString _ => true
  | _ => false
  end.

(** A call of the builtin [open] or a write to a file. *)
Definition is_file_call (ev : event) : bool :=
  match ev with
  | EvOpen _ _ | EvWrite _ _ => true
  | _ => false
  end.

(** ** Failing surroundings

    The world of [Demo] where no file can be opened, for reading or for
    writing, and a container whose metadata cannot be read. *)
Module Faulty.

Definition env : Env := {|
  fs_resolve := fs_resolve Demo.env;
  fs_is_dir := fs_is_dir Demo.env;
  fs_readable := λ _, false;
  fs_writable := λ _, false;
  czilib_Reader := czilib_Reader Demo.env;
  czilib_IntRect := czilib_IntRect Demo.env;
  etree_fromstring := etree_fromstring Demo.env;
  etree_tostring_pretty := etree_tostring_pretty Demo.env;
|}.

Definition reader : Reader := {|
  read_dims_string := read_dims_string Demo.plain_reader;
  read_dims := read_dims Demo.plain_reader;
  read_dims_sizes := read_dims_sizes Demo.plain_reader;
  read_scene_wh := λ _, Raise (NativeException "CDimCoordinatesOverspecifiedException");
  Native.is_mosaic := Raise (NativeException "FilePtrException");
  read_meta := Raise (NativeException "FilePtrException");
  read_meta_from_subblock := read_meta_from_subblock Demo.plain_reader;
  read_selected := read_selected Demo.plain_reader;
  mosaic_shape := mosaic_shape Demo.plain_reader;
  Native.read_mosaic := Native.read_mosaic Demo.plain_reader;
|}.

Definition czi : Heap := Demo.open_with reader "/data/plain.czi" "/tmp/meta.xml".

End Faulty.

(** ** Reasoning about computations *)

Section MonadFacts.

Context {S A B : Type}.

Lemma bind_ok (m : M S A) (f : A → M S B) s a s' :
  m s = (Ok a, s') → (m ≫= f) s = f a s'.
Proof. intros Hm. unfold mbind, M_bind. by rewrite Hm. Qed.

Lemma bind_raise (m : M S A) (f : A → M S B) s e s' :
  m s = (Raise e, s') → (m ≫= f) s = (Raise e, s').
Proof. intros Hm. unfold mbind, M_bind. by rewrite Hm. Qed.

End MonadFacts.

Example demo_pretty :
  Demo.pretty 0 Demo.meta_tree
  = ("<ImageDocument>" +:+ Demo.newline +:+ "  <Metadata/>" +:+ Demo.newline
     +:+ "</ImageDocument>" +:+ Demo.newline)%string.
Proof. reflexivity. Qed.

Example demo_scaled : Demo.scaled default_scale_factor 2000 = 200.
Proof. vm_compute. reflexivity. Qed.

(** ** Opening a container *)

Section Opening.

Variable env : Env.

Lemma convert_to_buffer_rejects file e wd :
  validation_error env file = Some e →
  convert_to_buffer env file wd = (Raise e, wd).
Proof.
  destruct file as [p|p| | | | |c]; simpl; try discriminate.
  - unfold resolve_strict, lift_result, mbind, M_bind.
    destruct (fs_resolve env p) as [f|e']; simpl.
    + destruct (fs_is_dir env f); [|discriminate]. by intros [= <-].
    + by intros [= <-].
  - unfold resolve_strict, lift_result, mbind, M_bind.
    destruct (fs_resolve env p) as [f|e']; simpl.
    + destruct (fs_is_dir env f); [|discriminate]. by intros [= <-].
    + by intros [= <-].
  - by intros [= <-].
Qed.

Lemma convert_to_buffer_path file p f wd :
  source_path file = Some p →
  fs_resolve env p = Ok f →
  fs_is_dir env f = false →
  convert_to_buffer env file wd = open_rb env f wd.
Proof.
  intros Hp Hf Hd.
  destruct file; simplify_eq/=;
    unfold resolve_strict, lift_result, mbind, M_bind; rewrite Hf; simpl;
    by rewrite Hd.
Qed.

(** C3, as amended: a path whose strict resolution raises is rejected with
    the error raised ([FileNotFoundError] when that is what the resolution
    raises), a path that resolves to a directory with [IsADirectoryError], a
    source of no accepted class with [TypeError], each without any call
    made; a numpy array is accepted and returned as it is, not as a stream;
    every other source (bytes, a [BytesIO], a [BufferedReader], a path to a
    file that opens for reading) yields a readable byte stream. *)
Theorem convert_to_buffer_cases file wd :
  (∀ p e, source_path file = Some p → fs_resolve env p = Raise e →
          convert_to_buffer env file wd = (Raise e, wd))
  ∧ (∀ p f, source_path file = Some p → fs_resolve env p = Ok f →
            fs_is_dir env f = true →
            convert_to_buffer env file wd = (Raise IsADirectoryError, wd))
  ∧ (∀ c, file = PyOther c → convert_to_buffer env file wd = (Raise TypeError, wd))
  ∧ (∀ a, file = PyNdarray a →
          convert_to_buffer env file wd = (Ok (Array a), wd))
  ∧ (validation_error env file = None →
     (∀ a, file ≠ PyNdarray a) →
     (∀ p f, source_path file = Some p → fs_resolve env p = Ok f →
             fs_readable env f = true) →
     ∃ s, fst (convert_to_buffer env file wd) = Ok (Stream s)).
Proof.
  split_and!.
  - intros p e Hp He. apply convert_to_buffer_rejects.
    destruct file; simplify_eq/=; by rewrite He.
  - intros p f Hp Hf Hd. apply convert_to_buffer_rejects.
    destruct file; simplify_eq/=; by rewrite Hf, Hd.
  - by intros c ->.
  - by intros a ->.
  - intros Hv Ha Hr.
    destruct file as [p|p|b|b|n|a|c]; simpl in Hv; try discriminate;
      try (by eexists).
    + destruct (fs_resolve env p) as [f|e] eqn:Hf; [|discriminate].
      destruct (fs_is_dir env f) eqn:Hd; [discriminate|].
      rewrite (convert_to_buffer_path (PyStr p) p f) by done.
      unfold open_rb, log, modify, mbind, M_bind; simpl.
      rewrite (Hr p f) by done. by eexists.
    + destruct (fs_resolve env p) as [f|e] eqn:Hf; [|discriminate].
      destruct (fs_is_dir env f) eqn:Hd; [discriminate|].
      rewrite (convert_to_buffer_path (PyPath p) p f) by done.
      unfold open_rb, log, modify, mbind, M_bind; simpl.
      rewrite (Hr p f) by done. by eexists.
    + by destruct (Ha a).
Qed.

(** C9: a source that fails validation makes the constructor raise that
    error with the world as it was: no file was opened and the native
    reader was not constructed. *)
Theorem init_rejects_before_reader file metafile_out verbose wd e :
  validation_error env file = Some e →
  __init__ env file metafile_out verbose wd = (Raise e, wd).
Proof.
  intros He. unfold __init__.
  by rewrite (bind_raise _ _ wd e wd) by by apply convert_to_buffer_rejects.
Qed.

(** X2: when the source is accepted, the constructor constructs the reader
    once, on the buffer [convert_to_buffer] returned and after it; the new
    object holds no metadata root yet. *)
Lemma init_constructs_reader file metafile_out verbose wd b wd' :
  convert_to_buffer env file wd = (Ok b, wd') →
  __init__ env file metafile_out verbose wd
  = (result_map (λ rd, mkObj b None metafile_out verbose rd None)
       (czilib_Reader env b),
     log_world (EvReaderNew b) wd').
Proof.
  intros Hb. unfold __init__. rewrite (bind_ok _ _ wd b wd') by done.
  unfold new_Reader, log, modify, lift_result, mbind, M_bind; simpl.
  by destruct (czilib_Reader env b).
Qed.

End Opening.

(** C3, as stated, fails on a numpy array: the call neither raises
    [TypeError] nor produces a byte stream, it returns the array.  It fails
    too on a path below a regular file: the path does not resolve, and the
    error is the [NotADirectoryError] of the resolution, not the not-found
    error. *)
Lemma convert_to_buffer_ndarray :
  let out := fst (convert_to_buffer Demo.env (PyNdarray Demo.an_array)
                    Demo.fresh_world) in
  (out = Ok (Array Demo.an_array)
   ∧ out ≠ Raise TypeError
   ∧ ∀ b, out = Ok b → is_byte_stream b = false)
  ∧ fs_resolve Demo.env "/data/plain.czi/x" = Raise NotADirectoryError
  ∧ fst (convert_to_buffer Demo.env (PyStr "/data/plain.czi/x") Demo.fresh_world)
    ≠ Raise FileNotFoundError.
Proof.
  simpl. split_and!; [done|done| |done|done]. by intros b [= <-].
Qed.

Lemma convert_to_buffer_cases_witness :
  convert_to_buffer Demo.env (PyStr "/data") Demo.fresh_world
    = (Raise IsADirectoryError, Demo.fresh_world)
  ∧ convert_to_buffer Demo.env (PyPath "/data/absent.czi") Demo.fresh_world
    = (Raise FileNotFoundError, Demo.fresh_world)
  ∧ convert_to_buffer Demo.env (PyStr "/data/plain.czi/x") Demo.fresh_world
    = (Raise NotADirectoryError, Demo.fresh_world)
  ∧ convert_to_buffer Demo.env (PyOther "int") Demo.fresh_world
    = (Raise TypeError, Demo.fresh_world)
  ∧ ∃ s, fst (convert_to_buffer Demo.env (PyStr "/data/plain.czi")
                Demo.fresh_world) = Ok (Stream s).
Proof.
  split_and!.
  - destruct (convert_to_buffer_cases Demo.env (PyStr "/data") Demo.fresh_world)
      as (_ & Hdir & _).
    apply (Hdir "/data"%string "/data"%string); reflexivity.
  - destruct (convert_to_buffer_cases Demo.env (PyPath "/data/absent.czi")
                Demo.fresh_world) as (Hraise & _).
    apply (Hraise "/data/absent.czi"%string); reflexivity.
  - destruct (convert_to_buffer_cases Demo.env (PyStr "/data/plain.czi/x")
                Demo.fresh_world) as (Hraise & _).
    apply (Hraise "/data/plain.czi/x"%string); reflexivity.
  - destruct (convert_to_buffer_cases Demo.env (PyOther "int") Demo.fresh_world)
      as (_ & _ & Hother & _).
    apply (Hother "int"%string). reflexivity.
  - destruct (convert_to_buffer_cases Demo.env (PyStr "/data/plain.czi")
                Demo.fresh_world) as (_ & _ & _ & _ & Hstream).
    apply Hstream.
    + reflexivity.
    + intros a. discriminate.
    + intros p f [= <-]. vm_compute. intros [= <-]. reflexivity.
Defined.

Lemma init_rejects_before_reader_witness :
  __init__ Demo.env (PyStr "/data") "" false Demo.fresh_world
    = (Raise IsADirectoryError, Demo.fresh_world)
  ∧ __init__ Demo.env (PyPath "/data/absent.czi") "" false Demo.fresh_world
    = (Raise FileNotFoundError, Demo.fresh_world)
  ∧ __init__ Demo.env (PyOther "int") "" false Demo.fresh_world
    = (Raise TypeError, Demo.fresh_world).
Proof.
  split_and!.
  - apply (init_rejects_before_reader Demo.env (PyStr "/data")). reflexivity.
  - apply (init_rejects_before_reader Demo.env (PyPath "/data/absent.czi")).
    reflexivity.
  - apply (init_rejects_before_reader Demo.env (PyOther "int")). reflexivity.
Defined.

Example init_opens_plain :
  ∃ o, __init__ Demo.env (PyStr "/data/plain.czi") "" false Demo.fresh_world
       = (Ok o,
          mkWorld [EvReaderNew (Stream (BufferedReader "/data/plain.czi"));
                   EvOpen "/data/plain.czi" "rb"] ∅ 0)
       ∧ reader o = Demo.plain_reader ∧ meta_root o = None.
Proof. eexists. split; [reflexivity|done]. Qed.

(** ** Building the plane constraints *)

Section Constraints.

Implicit Types (kwargs items : list (string * Z)) (hp : Heap) (pc : DimCoord).

Lemma logged_nil hp : logged [] hp = hp.
Proof. by destruct hp as [o [tr fs n]]. Qed.

Lemma logged_cons ev evs hp :
  logged (ev :: evs) hp = logged evs (logged [ev] hp).
Proof. unfold logged; simpl. by rewrite <-!app_assoc. Qed.

Lemma logged_app evs1 evs2 hp :
  logged (evs1 ++ evs2) hp = logged evs2 (logged evs1 hp).
Proof. unfold logged; simpl. by rewrite rev_app_distr, <-app_assoc. Qed.

Lemma log_call_logged ev hp : log_call ev hp = (Ok tt, logged [ev] hp).
Proof. done. Qed.

Lemma call_logged {A} ev (method : Reader → result A) hp :
  call ev method hp = (method (reader (self hp)), logged [ev] hp).
Proof. done. Qed.

Lemma axis_items_cons k v items :
  axis_items ((k, v) :: items)
  = if bool_decide (k ∈ ZISRAW_DIMS) then (k, v) :: axis_items items
    else axis_items items.
Proof.
  unfold axis_items. rewrite filter_cons; simpl.
  by destruct (decide (k ∈ ZISRAW_DIMS));
    [rewrite bool_decide_eq_true_2|rewrite bool_decide_eq_false_2].
Qed.

(** The comprehension over [kwargs.items()] never raises: it sets the axes
    of the alphabet, in order, and nothing else. *)
Lemma set_dims_spec items pc hp :
  set_dims items pc hp
  = (Ok (coordinate_from pc (axis_items items)), logged (set_dim_calls items) hp).
Proof.
  revert pc hp. induction items as [|[k v] items IH]; intros pc hp.
  - simpl. by rewrite logged_nil.
  - simpl. unfold set_dim_calls. rewrite axis_items_cons.
    destruct (bool_decide (k ∈ ZISRAW_DIMS)).
    + rewrite fmap_cons, logged_cons; simpl.
      unfold set_dim. unfold mbind at 1 2, M_bind; simpl. apply IH.
    + apply IH.
Qed.

Lemma plane_constraints_of_spec kwargs hp :
  plane_constraints_of kwargs hp
  = (Ok (coordinate_of kwargs), logged (constraint_calls kwargs) hp).
Proof.
  unfold plane_constraints_of, new_DimCoord, constraint_calls.
  unfold mbind at 1 2, M_bind; simpl.
  by rewrite set_dims_spec, (logged_cons EvDimCoordNew).
Qed.

(** None of the calls that build the constraints is made on the reader or
    constructs an [IntRect]. *)
Lemma constraint_calls_local kwargs :
  Forall (λ ev, is_reader_call ev = false ∧ ev ≠ EvIntRectNew)
         (constraint_calls kwargs).
Proof.
  apply Forall_cons; split; [done|].
  unfold set_dim_calls. apply Forall_fmap, Forall_true. by intros [k v].
Qed.

Lemma coordinate_from_lookup items pc k :
  NoDup items.*1 →
  coordinate_from pc items !! k
  = match kwargs_get k items with
    | Some v => Some v
    | None => pc !! k
    end.
Proof.
  revert pc. induction items as [|[k' v'] items IH]; intros pc Hnd; [done|].
  apply NoDup_cons in Hnd as [Hk' Hnd]. simpl. rewrite IH by done.
  unfold kwargs_get; simpl. case_bool_decide as Hk; simpl.
  - subst k'. rewrite lookup_insert_eq.
    destruct (find _ items) as [[k'' v'']|] eqn:Hfind; [|done].
    apply find_some in Hfind as [Hin Heq]. apply bool_decide_eq_true in Heq.
    simpl in Heq. subst k''. destruct Hk'.
    apply list_elem_of_fmap. exists (k, v''). split; [done|].
    by apply list_elem_of_In.
  - destruct (find _ items); [done|]. by rewrite lookup_insert_ne.
Qed.

Lemma kwargs_get_axis_items kwargs k :
  kwargs_get k (axis_items kwargs)
  = if decide (k ∈ ZISRAW_DIMS) then kwargs_get k kwargs else None.
Proof.
  induction kwargs as [|[k' v'] kwargs IH].
  - by destruct (decide _).
  - rewrite axis_items_cons. unfold kwargs_get in *; simpl.
    case_bool_decide as Hd; simpl.
    + case_bool_decide as Hk; simpl; [|done].
      subst k'. by rewrite decide_True.
    + rewrite IH. destruct (decide (k ∈ ZISRAW_DIMS)) as [Hin|]; [|done].
      rewrite bool_decide_eq_false_2; [done|]. by intros ->.
Qed.

(** The coordinate of a dictionary of keyword arguments holds exactly the
    entries whose key is an axis of the alphabet. *)
Lemma coordinate_of_lookup kwargs k :
  NoDup kwargs.*1 →
  coordinate_of kwargs !! k
  = if decide (k ∈ ZISRAW_DIMS) then kwargs_get k kwargs else None.
Proof.
  intros Hnd. unfold coordinate_of. rewrite coordinate_from_lookup.
  - rewrite kwargs_get_axis_items, lookup_empty. by repeat case_match.
  - apply (sublist_NoDup _ kwargs.*1); [done|].
    apply fmap_sublist. unfold axis_items. apply sublist_filter.
Qed.

End Constraints.

(** ** Queries *)

Section Queries.

Variable env : Env.

Implicit Types (kwargs before after : list (string * Z)) (hp : Heap).

(** Runs the first statement of a query: the plane constraints are built. *)
Ltac run_constraints :=
  rewrite !(bind_ok _ _ _ _ _ (plane_constraints_of_spec _ _)).

Lemma get_m_index_absent kwargs hp :
  kwargs_get "M" kwargs = None →
  _get_m_index_from_kwargs kwargs hp = (Ok (-1), hp).
Proof. intros Hm. unfold _get_m_index_from_kwargs. by rewrite Hm. Qed.

Lemma get_m_index_present kwargs m hp :
  kwargs_get "M" kwargs = Some m →
  _get_m_index_from_kwargs kwargs hp
  = (match Native.is_mosaic (reader (self hp)) with
     | Ok true => Ok m
     | Ok false => Raise Overspecified
     | Raise e => Raise e
     end, logged [EvIsMosaic] hp).
Proof.
  intros Hm. unfold _get_m_index_from_kwargs. rewrite Hm.
  unfold is_mosaic, mbind, M_bind. rewrite call_logged; simpl.
  by destruct (Native.is_mosaic (reader (self hp))) as [[]|].
Qed.

(** The three queries read their keyword arguments only through the axes
    of the alphabet and, for the first two, the entry of the tile index. *)
Lemma read_image_cong kwargs kwargs' hp :
  axis_items kwargs = axis_items kwargs' →
  kwargs_get "M" kwargs = kwargs_get "M" kwargs' →
  read_image kwargs hp = read_image kwargs' hp.
Proof.
  intros Ha Hm. unfold read_image.
  run_constraints.
  unfold coordinate_of, constraint_calls, set_dim_calls, _get_m_index_from_kwargs.
  by rewrite Ha, Hm.
Qed.

Lemma read_subblock_metadata_cong kwargs kwargs' hp :
  axis_items kwargs = axis_items kwargs' →
  kwargs_get "M" kwargs = kwargs_get "M" kwargs' →
  read_subblock_metadata kwargs hp = read_subblock_metadata kwargs' hp.
Proof.
  intros Ha Hm. unfold read_subblock_metadata.
  run_constraints.
  unfold coordinate_of, constraint_calls, set_dim_calls, _get_m_index_from_kwargs.
  by rewrite Ha, Hm.
Qed.

Lemma read_mosaic_cong region scale_factor kwargs kwargs' hp :
  axis_items kwargs = axis_items kwargs' →
  read_mosaic env region scale_factor kwargs hp
  = read_mosaic env region scale_factor kwargs' hp.
Proof.
  intros Ha. unfold read_mosaic.
  run_constraints.
  unfold coordinate_of, constraint_calls, set_dim_calls. by rewrite Ha.
Qed.

Lemma axis_items_drop before k v after :
  k ∉ ZISRAW_DIMS →
  axis_items (before ++ (k, v) :: after) = axis_items (before ++ after).
Proof.
  intros Hk. unfold axis_items.
  by rewrite !filter_app, filter_cons_False.
Qed.

Lemma kwargs_get_drop key before k v after :
  k ≠ key →
  kwargs_get key (before ++ (k, v) :: after) = kwargs_get key (before ++ after).
Proof.
  intros Hk. unfold kwargs_get. f_equal.
  induction before as [|[k' v'] before IH]; simpl.
  - by rewrite bool_decide_eq_false_2.
  - by destruct (bool_decide (k' = key)).
Qed.

Lemma axis_items_without_tile_index kwargs :
  axis_items (without_tile_index kwargs) = axis_items kwargs.
Proof.
  unfold axis_items, without_tile_index.
  induction kwargs as [|[k v] kwargs IH]; [done|].
  rewrite !filter_cons; simpl.
  destruct (decide (k ≠ "M"%string)) as [Hk|Hk].
  - rewrite filter_cons; simpl. by rewrite IH.
  - apply dec_stable in Hk as ->.
    by rewrite decide_False by (by vm_compute).
Qed.

Lemma assign_ok field v r : is_int32 v = true → assign field v r = Ok (field v r).
Proof. intros Hv. unfold assign. by rewrite Hv. Qed.

Lemma assign_raise field v r : is_int32 v = false → assign field v r = Raise TypeError.
Proof. intros Hv. unfold assign. by rewrite Hv. Qed.

Lemma length_4_inv (r : list Z) :
  length r = 4%nat → ∃ rx ry rw rh, r = [rx; ry; rw; rh].
Proof. destruct r as [|rx [|ry [|rw [|rh [|]]]]]; try done. eauto. Qed.

(** What [read_mosaic] does once the region has passed the assertion and
    its items fit an [IntRect]. *)
Lemma read_mosaic_spec region scale_factor kwargs hp :
  (∀ r, region = Some r → length r = 4%nat ∧ all_int32 r = true) →
  let pc := coordinate_of kwargs in
  let scale := default default_scale_factor scale_factor in
  let rect := requested_rect env region in
  read_mosaic env region scale_factor kwargs hp
  = (Native.read_mosaic (reader (self hp)) pc scale rect,
     logged (constraint_calls kwargs ++ [EvIntRectNew; EvReadMosaic pc scale rect]) hp).
Proof.
  intros Hr pc scale rect. unfold read_mosaic.
  run_constraints. rewrite logged_app.
  destruct region as [r|]; simpl.
  - destruct (Hr r eq_refl) as [Hlen Hfit].
    destruct (length_4_inv r Hlen) as (rx & ry & rw & rh & ->).
    unfold all_int32 in Hfit; simpl in Hfit.
    apply andb_prop in Hfit as [Hx Hfit]. apply andb_prop in Hfit as [Hy Hfit].
    apply andb_prop in Hfit as [Hw Hfit]. apply andb_prop in Hfit as [Hh _].
    unfold py_assert, item, lift_result, mbind, M_bind; simpl.
    rewrite !assign_ok by done. simpl.
    by destruct (Native.read_mosaic _ _ _ _).
  - unfold lift_result, mbind, M_bind; simpl.
    rewrite ?assign_ok by reflexivity. simpl.
    by destruct (Native.read_mosaic _ _ _ _).
Qed.

Lemma read_mosaic_assertion r scale_factor kwargs hp :
  length r ≠ 4%nat →
  read_mosaic env (Some r) scale_factor kwargs hp
  = (Raise AssertionError, logged (constraint_calls kwargs) hp).
Proof.
  intros Hlen. unfold read_mosaic.
  run_constraints.
  unfold py_assert. by rewrite bool_decide_eq_false_2 by done.
Qed.

(** An item of the region that does not fit stops [read_mosaic] once the
    [IntRect] is constructed, before the reader is called. *)
Lemma read_mosaic_type_error r scale_factor kwargs hp :
  length r = 4%nat →
  all_int32 r = false →
  read_mosaic env (Some r) scale_factor kwargs hp
  = (Raise TypeError, logged (constraint_calls kwargs ++ [EvIntRectNew]) hp).
Proof.
  intros Hlen Hfit. unfold read_mosaic.
  run_constraints. rewrite logged_app.
  destruct (length_4_inv r Hlen) as (rx & ry & rw & rh & ->).
  unfold all_int32 in Hfit; simpl in Hfit.
  unfold py_assert, item, lift_result, mbind, M_bind, assign; simpl.
  destruct (is_int32 rx); simpl; [|done].
  destruct (is_int32 ry); simpl; [|done].
  destruct (is_int32 rw); simpl; [|done].
  by destruct (is_int32 rh).
Qed.

(** C1, as amended: on a container that is not a mosaic, [read_image] and
    [read_subblock_metadata] called with the tile index [M] raise the
    overspecified-coordinate error, after building the constraints and
    asking the reader [is_mosaic], and before any read; [read_mosaic] does
    not look at [M]: the call is the call without it. *)
Theorem tile_index_on_non_mosaic kwargs m hp :
  Native.is_mosaic (reader (self hp)) = Ok false →
  kwargs_get "M" kwargs = Some m →
  read_image kwargs hp
    = (Raise Overspecified, logged (constraint_calls kwargs ++ [EvIsMosaic]) hp)
  ∧ read_subblock_metadata kwargs hp
    = (Raise Overspecified, logged (constraint_calls kwargs ++ [EvIsMosaic]) hp)
  ∧ ∀ region scale_factor,
      read_mosaic env region scale_factor kwargs hp
      = read_mosaic env region scale_factor (without_tile_index kwargs) hp.
Proof.
  intros Hmosaic Hm. split_and!.
  - unfold read_image.
    run_constraints.
    rewrite (bind_raise _ _ _ Overspecified
               (logged [EvIsMosaic] (logged (constraint_calls kwargs) hp))).
    + by rewrite logged_app.
    + rewrite (get_m_index_present _ m) by done. simpl. by rewrite Hmosaic.
  - unfold read_subblock_metadata.
    run_constraints.
    rewrite (bind_raise _ _ _ Overspecified
               (logged [EvIsMosaic] (logged (constraint_calls kwargs) hp))).
    + by rewrite logged_app.
    + rewrite (get_m_index_present _ m) by done. simpl. by rewrite Hmosaic.
  - intros region scale_factor. apply read_mosaic_cong.
    by rewrite axis_items_without_tile_index.
Qed.

(** C4: a keyword outside the alphabet, other than [M], is dropped: each of
    the three queries returns what it returns without the keyword, and
    makes the same calls. *)
Theorem unknown_axis_dropped k v before after hp :
  k ∉ ZISRAW_DIMS →
  k ≠ "M"%string →
  read_image (before ++ (k, v) :: after) hp = read_image (before ++ after) hp
  ∧ read_subblock_metadata (before ++ (k, v) :: after) hp
    = read_subblock_metadata (before ++ after) hp
  ∧ ∀ region scale_factor,
      read_mosaic env region scale_factor (before ++ (k, v) :: after) hp
      = read_mosaic env region scale_factor (before ++ after) hp.
Proof.
  intros Hk HM. split_and!.
  - apply read_image_cong; [by apply axis_items_drop|by apply kwargs_get_drop].
  - apply read_subblock_metadata_cong;
      [by apply axis_items_drop|by apply kwargs_get_drop].
  - intros region scale_factor. apply read_mosaic_cong. by apply axis_items_drop.
Qed.

(** C10: a region whose length is not 4 makes [read_mosaic] raise
    [AssertionError] after the calls that build the constraints and
    nothing else, so with no [IntRect] constructed and no call on the
    reader; a region of length 4 is assigned to the rectangle as x, y, w, h
    in that order: when the four integers fit a C [int] the native reader
    receives that rectangle, and when one does not the assignment raises
    [TypeError] before the reader is called. *)
Theorem read_mosaic_region_length region scale_factor kwargs hp :
  (length region ≠ 4%nat →
     read_mosaic env (Some region) scale_factor kwargs hp
       = (Raise AssertionError, logged (constraint_calls kwargs) hp)
     ∧ Forall (λ ev, is_reader_call ev = false ∧ ev ≠ EvIntRectNew)
              (constraint_calls kwargs))
  ∧ (∀ rx ry rw rh, region = [rx; ry; rw; rh] →
       all_int32 region = true →
       let pc := coordinate_of kwargs in
       let scale := default default_scale_factor scale_factor in
       let rect := mkIntRect rx ry rw rh in
       read_mosaic env (Some region) scale_factor kwargs hp
       = (Native.read_mosaic (reader (self hp)) pc scale rect,
          logged (constraint_calls kwargs ++ [EvIntRectNew; EvReadMosaic pc scale rect])
                 hp))
  ∧ (length region = 4%nat →
     all_int32 region = false →
     read_mosaic env (Some region) scale_factor kwargs hp
     = (Raise TypeError, logged (constraint_calls kwargs ++ [EvIntRectNew]) hp)).
Proof.
  split_and!.
  - intros Hlen. split; [by apply read_mosaic_assertion|].
    apply constraint_calls_local.
  - intros rx ry rw rh -> Hfit pc scale rect.
    rewrite read_mosaic_spec; [done|]. by intros r [= <-].
  - intros Hlen Hfit. by apply read_mosaic_type_error.
Qed.

(** C7: without a scale factor [read_mosaic] calls the native reader with
    0.1; without a region it calls it with a fresh rectangle whose w and h
    are -1; it returns what the reader returns.  For a native reader that
    does what the spec says of it, the array returned has the shape
    (1, scaled height, scaled width) of the requested rectangle, which is
    the mosaic bounding box when no region is given: each scaled extent is
    the native extent times the factor, up to rounding. *)
Theorem read_mosaic_defaults kwargs hp :
  let rd := reader (self hp) in
  let pc := coordinate_of kwargs in
  let sentinel := set_h (-1) (set_w (-1) (czilib_IntRect env)) in
  (w sentinel = -1 ∧ h sentinel = -1)
  ∧ (∀ region,
       (∀ r, region = Some r → length r = 4%nat ∧ all_int32 r = true) →
       let rect := requested_rect env region in
       read_mosaic env region None kwargs hp
       = (Native.read_mosaic rd pc default_scale_factor rect,
          logged (constraint_calls kwargs
                  ++ [EvIntRectNew; EvReadMosaic pc default_scale_factor rect]) hp))
  ∧ (∀ scale_factor,
       let scale := default default_scale_factor scale_factor in
       read_mosaic env None scale_factor kwargs hp
       = (Native.read_mosaic rd pc scale sentinel,
          logged (constraint_calls kwargs
                  ++ [EvIntRectNew; EvReadMosaic pc scale sentinel]) hp))
  ∧ (∀ bbox img,
       spec_mosaic_contract rd →
       mosaic_shape rd = Ok bbox →
       fst (read_mosaic env None None kwargs hp) = Ok img →
       ∃ sh sw, nd_shape img = [1; sh; sw]
                ∧ spec_scaled_to default_scale_factor (h bbox) sh = true
                ∧ spec_scaled_to default_scale_factor (w bbox) sw = true)
  ∧ (∀ region scale_factor bbox img,
       spec_mosaic_contract rd →
       mosaic_shape rd = Ok bbox →
       fst (read_mosaic env region scale_factor kwargs hp) = Ok img →
       spec_mosaic_shape bbox (default default_scale_factor scale_factor)
         (requested_rect env region) (nd_shape img)).
Proof.
  intros rd pc sentinel. split_and!; [done|done|..].
  - intros region Hr rect. by rewrite read_mosaic_spec.
  - intros scale_factor scale. by rewrite read_mosaic_spec.
  - intros bbox img Hc Hb. rewrite read_mosaic_spec by done. simpl.
    intros Himg. apply (Hc _ _ _ _ _ Hb Himg).
  - intros region scale_factor bbox img Hc Hb.
    destruct region as [r|].
    + destruct (decide (length r = 4%nat)) as [Hlen|Hlen].
      * destruct (all_int32 r) eqn:Hfit.
        -- rewrite read_mosaic_spec by (by intros ? [= <-]). simpl. intros Himg.
           apply (Hc _ _ _ _ _ Hb Himg).
        -- by rewrite read_mosaic_type_error.
      * by rewrite read_mosaic_assertion.
    + rewrite read_mosaic_spec by done. simpl. intros Himg.
      apply (Hc _ _ _ _ _ Hb Himg).
Qed.

(** C2: on a container that is not a mosaic, [read_mosaic_size] returns the
    rectangle (0, 0, -1, -1) and does not raise; on a mosaic it returns
    what the reader's [mosaic_shape] returns. *)
Theorem read_mosaic_size_cases hp :
  (Native.is_mosaic (reader (self hp)) = Ok false →
     read_mosaic_size env hp
     = (Ok (mkIntRect 0 0 (-1) (-1)), logged [EvIsMosaic; EvIntRectNew] hp))
  ∧ (Native.is_mosaic (reader (self hp)) = Ok true →
     read_mosaic_size env hp
     = (mosaic_shape (reader (self hp)), logged [EvIsMosaic; EvMosaicShape] hp)).
Proof.
  split; intros Hm; unfold read_mosaic_size;
    rewrite (bind_ok _ _ hp _ (logged [EvIsMosaic] hp))
      by (by rewrite call_logged, Hm); simpl.
  - done.
  - by rewrite call_logged.
Qed.

(** C8: for every scene index, given or left to its default, when
    [scene_bounding_box] returns (x, y, w, h), [scene_height_by_width] on
    the same reader returns (h, w). *)
Theorem scene_height_by_width_consistent index hp hp' bx by_ bw bh :
  reader (self hp') = reader (self hp) →
  fst (scene_bounding_box index hp) = Ok (bx, by_, bw, bh) →
  fst (scene_height_by_width index hp') = Ok (bh, bw).
Proof.
  intros Hrd. unfold scene_bounding_box, scene_height_by_width.
  unfold mbind, M_bind. rewrite !call_logged, Hrd.
  destruct (read_scene_wh _ _) as [box|e]; simpl; [|done].
  by intros [= <- <- <- <-].
Qed.

End Queries.

(** C1, as stated, fails for [read_mosaic]: on the plain container, the call
    with [M=0] does not raise the overspecified-coordinate error; it goes to
    the native reader without asking [is_mosaic], as the call without [M]
    does, and returns what the reader returns. *)
Lemma read_mosaic_ignores_tile_index :
  Native.is_mosaic (reader (self Demo.plain_czi)) = Ok false
  ∧ kwargs_get "M" [("M"%string, 0)] = Some 0
  ∧ fst (read_mosaic Demo.env None None [("M"%string, 0)] Demo.plain_czi)
    ≠ Raise Overspecified
  ∧ read_mosaic Demo.env None None [("M"%string, 0)] Demo.plain_czi
    = read_mosaic Demo.env None None [] Demo.plain_czi
  ∧ trace (world (snd (read_mosaic Demo.env None None [("M"%string, 0)]
                         Demo.plain_czi)))
    = [EvReadMosaic ∅ default_scale_factor (mkIntRect 0 0 (-1) (-1));
       EvIntRectNew; EvDimCoordNew].
Proof. split_and!; [done|done| |done|done]. vm_compute. discriminate. Qed.

Lemma tile_index_on_non_mosaic_witness :
  read_image [("C"%string, 1); ("M"%string, 0)] Demo.plain_czi
    = (Raise Overspecified,
       logged [EvDimCoordNew; EvSetDim "C" 1; EvIsMosaic] Demo.plain_czi)
  ∧ read_subblock_metadata [("C"%string, 1); ("M"%string, 0)] Demo.plain_czi
    = (Raise Overspecified,
       logged [EvDimCoordNew; EvSetDim "C" 1; EvIsMosaic] Demo.plain_czi).
Proof.
  pose proof (tile_index_on_non_mosaic Demo.env
                [("C"%string, 1); ("M"%string, 0)] 0 Demo.plain_czi
                eq_refl eq_refl) as (Himage & Hmeta & _).
  split; [exact Himage|exact Hmeta].
Defined.

Lemma unknown_axis_dropped_witness :
  read_image [("C"%string, 1); ("Q"%string, 7); ("Z"%string, 3)] Demo.plain_czi
  = read_image [("C"%string, 1); ("Z"%string, 3)] Demo.plain_czi.
Proof.
  apply (unknown_axis_dropped Demo.env "Q" 7 [("C"%string, 1)] [("Z"%string, 3)]
           Demo.plain_czi).
  - apply (bool_decide_unpack _). vm_compute. exact I.
  - discriminate.
Defined.

Lemma read_mosaic_region_length_witness :
  read_mosaic Demo.env (Some [1; 2; 3]) None [("C"%string, 1)] Demo.mosaic_czi
    = (Raise AssertionError, logged [EvDimCoordNew; EvSetDim "C" 1] Demo.mosaic_czi)
  ∧ fst (read_mosaic Demo.env (Some [5; 6; 100; 50]) (Some 0.5%float)
           [("C"%string, 1)] Demo.mosaic_czi)
    = Ok (mkNdarray [1; 25; 50] [])
  ∧ read_mosaic Demo.env (Some [2147483648; 0; 1; 1]) None [("C"%string, 1)]
      Demo.mosaic_czi
    = (Raise TypeError,
       logged [EvDimCoordNew; EvSetDim "C" 1; EvIntRectNew] Demo.mosaic_czi).
Proof.
  split_and!.
  - apply (read_mosaic_region_length Demo.env [1; 2; 3] None [("C"%string, 1)]
             Demo.mosaic_czi).
    simpl. lia.
  - destruct (read_mosaic_region_length Demo.env [5; 6; 100; 50]
                (Some 0.5%float) [("C"%string, 1)] Demo.mosaic_czi)
      as (_ & Hfits & _).
    rewrite (Hfits 5 6 100 50 eq_refl eq_refl).
    vm_compute. reflexivity.
  - apply (read_mosaic_region_length Demo.env [2147483648; 0; 1; 1] None
             [("C"%string, 1)] Demo.mosaic_czi); reflexivity.
Defined.

Lemma float_ratio_den_pos f num den : float_ratio f = Some (num, den) → 0 < den.
Proof.
  unfold float_ratio. destruct (Prim2SF f) as [| | |sign m e]; try done.
  - by intros [= <- <-].
  - destruct (0 <=? e) eqn:He; intros [= <- <-]; [done|].
    apply Z.leb_gt in He. apply Z.pow_pos_nonneg; lia.
Qed.

(** Rounding down is one of the roundings the spec allows. *)
Lemma demo_scaled_is_scaled f n :
  is_Some (float_ratio f) → spec_scaled_to f n (Demo.scaled f n) = true.
Proof.
  intros [[num den] Hf]. unfold spec_scaled_to, Demo.scaled. rewrite Hf.
  apply float_ratio_den_pos in Hf. apply Z.ltb_lt.
  pose proof (Z.mod_pos_bound (n * num) den Hf) as Hmod.
  rewrite Z.mod_eq in Hmod by lia. lia.
Qed.

Lemma demo_reader_meets_spec mosaic metadata :
  spec_mosaic_contract (Demo.a_reader mosaic metadata).
Proof.
  intros pc scale_factor region bbox img [= <-]. simpl.
  destruct (float_ratio scale_factor) as [ratio|] eqn:Hf; [|done].
  intros [= <-]. do 2 eexists. split; [done|].
  split; apply demo_scaled_is_scaled; by rewrite Hf.
Qed.

Lemma read_mosaic_defaults_witness :
  fst (read_mosaic Demo.env None None [("C"%string, 1)] Demo.mosaic_czi)
    = Ok (mkNdarray [1; 100; 200] [])
  ∧ spec_scaled_to default_scale_factor 1000 100 = true
  ∧ spec_scaled_to default_scale_factor 2000 200 = true
  ∧ ∃ sh sw, nd_shape (mkNdarray [1; 100; 200] []) = [1; sh; sw]
             ∧ spec_scaled_to default_scale_factor 1000 sh = true
             ∧ spec_scaled_to default_scale_factor 2000 sw = true.
Proof.
  destruct (read_mosaic_defaults Demo.env [("C"%string, 1)] Demo.mosaic_czi)
    as (_ & _ & Hcall & Hshape & _).
  split_and!.
  - rewrite (Hcall None). vm_compute. reflexivity.
  - vm_compute. reflexivity.
  - vm_compute. reflexivity.
  - apply (Hshape Demo.bbox).
    + apply demo_reader_meets_spec.
    + reflexivity.
    + vm_compute. reflexivity.
Defined.

Lemma read_mosaic_size_cases_witness :
  fst (read_mosaic_size Demo.env Demo.plain_czi) = Ok (mkIntRect 0 0 (-1) (-1))
  ∧ fst (read_mosaic_size Demo.env Demo.mosaic_czi) = Ok Demo.bbox.
Proof.
  split.
  - by rewrite (proj1 (read_mosaic_size_cases Demo.env Demo.plain_czi) eq_refl).
  - by rewrite (proj2 (read_mosaic_size_cases Demo.env Demo.mosaic_czi) eq_refl).
Defined.

Lemma scene_height_by_width_consistent_witness :
  fst (scene_bounding_box None Demo.plain_czi) = Ok (10, 20, 475, 325)
  ∧ fst (scene_height_by_width None Demo.plain_czi) = Ok (325, 475)
  ∧ fst (scene_height_by_width (Some 0) Demo.plain_czi) = Ok (325, 475).
Proof.
  split_and!.
  - reflexivity.
  - apply (scene_height_by_width_consistent None Demo.plain_czi Demo.plain_czi
             10 20 475 325); reflexivity.
  - apply (scene_height_by_width_consistent (Some 0) Demo.plain_czi
             Demo.plain_czi 10 20 475 325); reflexivity.
Defined.

(** ** The metadata document *)

Section Metadata.

Variable env : Env.

Implicit Types (hp : Heap) (e : Element).

(** Runs [meta] symbolically, down to the answers of the environment. *)
Ltac run_meta :=
  unfold meta, gets, call, fromstring, tostring_pretty, write_text, log_call,
    modify, lift_result, raise, mbind, M_bind; simpl.

(** An access that finds a root with children returns it and, without an
    export path, does nothing else: the reader is not asked again and
    nothing is parsed. *)
Lemma meta_cached hp e :
  meta_root (self hp) = Some e →
  element_bool e = true →
  metafile_out (self hp) = ""%string →
  meta env hp = (Ok (Some e), hp).
Proof.
  intros Hroot Hbool Hout. run_meta.
  rewrite Hroot; simpl. rewrite Hbool; simpl.
  rewrite Hout; simpl. by rewrite Hroot.
Qed.

(** An access that finds a root without children loads the document again:
    it asks the reader, parses, and returns a new element object. *)
Lemma meta_reloads_childless_root hp e text t :
  meta_root (self hp) = Some e →
  element_bool e = false →
  metafile_out (self hp) = ""%string →
  read_meta (reader (self hp)) = Ok text →
  etree_fromstring env text = Ok t →
  let e' := mkElement (next_id (world hp)) t in
  meta env hp
  = (Ok (Some e'),
     mkHeap (set_meta_root (Some e') (self hp))
       (mkWorld (EvFromString text :: EvReadMeta :: trace (world hp))
                (files (world hp)) (S (next_id (world hp))))).
Proof.
  intros Hroot Hbool Hout Htext Ht e'. run_meta.
  rewrite Hroot; simpl. rewrite Hbool; simpl. rewrite Htext, Ht; simpl.
  by rewrite Hout.
Qed.

(** The first access returns: when the reader hands out the metadata, lxml
    parses it and the export file (if any) can be written, the result is a
    new element for the parsed document. *)
Lemma meta_first_access hp text t :
  meta_root (self hp) = None →
  read_meta (reader (self hp)) = Ok text →
  etree_fromstring env text = Ok t →
  (metafile_out (self hp) ≠ ""%string → fs_writable env (metafile_out (self hp)) = true) →
  fst (meta env hp) = Ok (Some (mkElement (next_id (world hp)) t)).
Proof.
  destruct hp as [[b fn out v rd root0] [tr fs n]]; simpl.
  intros -> Htext Ht Hw. run_meta. rewrite Htext, Ht; simpl.
  case_bool_decide as Hout; simpl; [|done].
  by rewrite Hw.
Qed.

(** What an access leaves behind: the element returned is the one the
    object holds, and the other attributes are as they were. *)
Lemma meta_returns_root hp root hp' :
  meta env hp = (Ok root, hp') →
  meta_root (self hp') = root
  ∧ metafile_out (self hp') = metafile_out (self hp)
  ∧ reader (self hp') = reader (self hp)
  ∧ ∃ e, root = Some e.
Proof.
  destruct hp as [[b fn out v rd root0] [tr fs n]]. run_meta.
  destruct root0 as [e0|]; simpl.
  - destruct (element_bool e0); simpl.
    + destruct (bool_decide (out ≠ ""%string)); simpl.
      * destruct (fs_writable env out); simpl; [|done].
        intros [= <- <-]; simpl. eauto.
      * intros [= <- <-]; simpl. eauto.
    + destruct (read_meta rd) as [text|]; simpl; [|done].
      destruct (etree_fromstring env text) as [t|]; simpl; [|done].
      destruct (bool_decide (out ≠ ""%string)); simpl.
      * destruct (fs_writable env out); simpl; [|done].
        intros [= <- <-]; simpl. eauto.
      * intros [= <- <-]; simpl. eauto.
  - destruct (read_meta rd) as [text|]; simpl; [|done].
    destruct (etree_fromstring env text) as [t|]; simpl; [|done].
    destruct (bool_decide (out ≠ ""%string)); simpl.
    + destruct (fs_writable env out); simpl; [|done].
      intros [= <- <-]; simpl. eauto.
    + intros [= <- <-]; simpl. eauto.
Qed.

(** X1: with a root that has children and no export path, the second access
    is served from the object: same element, no call. *)
Lemma meta_twice_when_root_has_children hp e hp' :
  metafile_out (self hp) = ""%string →
  meta env hp = (Ok (Some e), hp') →
  element_bool e = true →
  meta env hp' = (Ok (Some e), hp').
Proof.
  intros Hout Hmeta Hbool.
  destruct (meta_returns_root _ _ _ Hmeta) as (Hroot & Hout' & _).
  apply meta_cached; [done|done|congruence].
Qed.

(** C6: with an export path, an access that returns has written the
    serialized document it returns to that path; and when lxml parses its
    own pretty-printed output of that document back to the same tree up to
    blank text, reading the file back gives the document returned, up to
    blank text. *)
Theorem meta_export_round_trip hp root hp' :
  metafile_out (self hp) ≠ ""%string →
  meta env hp = (Ok root, hp') →
  ∃ e, root = Some e
    ∧ files (world hp') !! metafile_out (self hp)
      = Some (etree_tostring_pretty env (el_xml e))
    ∧ (lxml_round_trip env (el_xml e) →
       ∃ t', parse_back env (metafile_out (self hp)) (world hp') = Ok t'
             ∧ same_modulo_whitespace t' (el_xml e)).
Proof.
  intros Hout Hmeta.
  assert (∃ e, root = Some e
            ∧ files (world hp') !! metafile_out (self hp)
              = Some (etree_tostring_pretty env (el_xml e))) as (e & -> & Hfile).
  { revert Hout Hmeta.
    destruct hp as [[b fn out v rd root0] [tr fs n]]. run_meta.
    intros Hout.
    destruct root0 as [e0|]; simpl.
    - destruct (element_bool e0); simpl.
      + rewrite (bool_decide_eq_true_2 _ Hout); simpl.
        destruct (fs_writable env out); simpl; [|done].
        intros [= <- <-]; simpl. eexists. by rewrite lookup_insert_eq.
      + destruct (read_meta rd) as [text|]; simpl; [|done].
        destruct (etree_fromstring env text) as [t|]; simpl; [|done].
        rewrite (bool_decide_eq_true_2 _ Hout); simpl.
        destruct (fs_writable env out); simpl; [|done].
        intros [= <- <-]; simpl. eexists. by rewrite lookup_insert_eq.
    - destruct (read_meta rd) as [text|]; simpl; [|done].
      destruct (etree_fromstring env text) as [t|]; simpl; [|done].
      rewrite (bool_decide_eq_true_2 _ Hout); simpl.
      destruct (fs_writable env out); simpl; [|done].
      intros [= <- <-]; simpl. eexists. by rewrite lookup_insert_eq. }
  exists e. split_and!; [done|done|].
  intros (t' & Hparse & Hsame). exists t'. split; [|done].
  unfold parse_back. by rewrite Hfile.
Qed.

End Metadata.

Lemma meta_export_round_trip_witness :
  ∃ hp',
    meta Demo.env Demo.exporting_czi = (Ok (Some (mkElement 0 Demo.meta_tree)), hp')
    ∧ files (world hp') !! "/tmp/meta.xml"%string = Some (Demo.pretty 0 Demo.meta_tree)
    ∧ parse_back Demo.env "/tmp/meta.xml" (world hp') = Ok Demo.meta_tree_reparsed
    ∧ same_modulo_whitespace Demo.meta_tree_reparsed Demo.meta_tree.
Proof.
  eexists. split; [reflexivity|].
  destruct (meta_export_round_trip Demo.env Demo.exporting_czi _ _
              ltac:(discriminate) eq_refl) as (e & [= <-] & Hfile & Hback).
  split; [exact Hfile|].
  destruct Hback as (t' & Hparse & Hsame).
  - exists Demo.meta_tree_reparsed. split; reflexivity.
  - split; [|reflexivity]. vm_compute. reflexivity.
Defined.

(** C5, at a container whose metadata document is one empty element: the
    first access reads and parses the document, and so does the second,
    which returns a different element object. *)
Theorem meta_not_cached_for_childless_root :
  let first := meta Demo.env Demo.bare_czi in
  let second := meta Demo.env (snd first) in
  read_meta (reader (self Demo.bare_czi)) = Ok "<ImageDocument/>"%string
  ∧ fst first = Ok (Some (mkElement 0 Demo.bare_tree))
  ∧ fst second = Ok (Some (mkElement 1 Demo.bare_tree))
  ∧ trace (world (snd second))
    = [EvFromString "<ImageDocument/>"; EvReadMeta;
       EvFromString "<ImageDocument/>"; EvReadMeta].
Proof. vm_compute. done. Qed.

(** The same two accesses on the plain container, whose root has a child:
    one read, one parse, one element object. *)
Example meta_cached_for_plain :
  let first := meta Demo.env Demo.plain_czi in
  let second := meta Demo.env (snd first) in
  fst first = Ok (Some (mkElement 0 Demo.meta_tree))
  ∧ fst second = Ok (Some (mkElement 0 Demo.meta_tree))
  ∧ trace (world (snd second)) = [EvFromString Demo.meta_text; EvReadMeta].
Proof. vm_compute. done. Qed.

Example init_opens_bare :
  ∃ o wd, __init__ Demo.env (PyStr "/data/bare.czi") "" false Demo.fresh_world
          = (Ok o, wd)
          ∧ reader o = reader (self Demo.bare_czi)
          ∧ meta_root o = meta_root (self Demo.bare_czi).
Proof. do 2 eexists. split; [reflexivity|done]. Qed.

Lemma meta_twice_when_root_has_children_witness :
  ∃ hp', meta Demo.env Demo.plain_czi = (Ok (Some (mkElement 0 Demo.meta_tree)), hp')
         ∧ meta Demo.env hp' = (Ok (Some (mkElement 0 Demo.meta_tree)), hp').
Proof.
  eexists. split; [reflexivity|].
  apply (meta_twice_when_root_has_children Demo.env Demo.plain_czi); reflexivity.
Defined.

Lemma init_constructs_reader_witness :
  ∃ o, __init__ Demo.env (PyPath "/data/mosaic.czi") "" true Demo.fresh_world
       = (Ok o,
          mkWorld [EvReaderNew (Stream (BufferedReader "/data/mosaic.czi"));
                   EvOpen "/data/mosaic.czi" "rb"] ∅ 0)
       ∧ reader o = Demo.mosaic_reader.
Proof.
  eexists. split.
  - rewrite (init_constructs_reader Demo.env (PyPath "/data/mosaic.czi") "" true
               Demo.fresh_world (Stream (BufferedReader "/data/mosaic.czi"))
               (log_world (EvOpen "/data/mosaic.czi" "rb") Demo.fresh_world)
               eq_refl).
    reflexivity.
  - reflexivity.
Defined.

(** ** Methods that leave the object alone *)

Section ReadOnly.

Variable env : Env.

Lemma only_calls_added_refl hp : only_calls_added hp hp.
Proof. split_and!; [done..|]. by exists []. Qed.

Lemma only_calls_added_trans hp1 hp2 hp3 :
  only_calls_added hp1 hp2 → only_calls_added hp2 hp3 → only_calls_added hp1 hp3.
Proof.
  intros (Hs & Hf & Hn & evs & Ht) (Hs' & Hf' & Hn' & evs' & Ht').
  split_and!; [congruence..|].
  exists (evs' ++ evs). by rewrite Ht', Ht, app_assoc.
Qed.

Lemma read_only_ret {A} (a : A) : read_only (mret a).
Proof. intros hp. apply only_calls_added_refl. Qed.

Lemma read_only_raise {A} e : read_only (raise e : M Heap A).
Proof. intros hp. apply only_calls_added_refl. Qed.

Lemma read_only_bind {A B} (m : M Heap A) (f : A → M Heap B) :
  read_only m → (∀ a, read_only (f a)) → read_only (m ≫= f).
Proof.
  intros Hm Hf hp. specialize (Hm hp). unfold mbind, M_bind.
  destruct (m hp) as [[a|e] hp1]; simpl in *; [|done].
  eapply only_calls_added_trans; [done|]. apply Hf.
Qed.

Lemma read_only_log_call ev : read_only (log_call ev).
Proof. intros hp. split_and!; [done..|]. by exists [ev]. Qed.

Lemma read_only_call {A} ev (method : Reader → result A) :
  read_only (call ev method).
Proof. intros hp. rewrite call_logged. split_and!; [done..|]. by exists [ev]. Qed.

Lemma read_only_set_dims items pc : read_only (set_dims items pc).
Proof.
  revert pc. induction items as [|[k v] items IH]; intros pc; simpl.
  - apply read_only_ret.
  - destruct (bool_decide (k ∈ ZISRAW_DIMS)); [|apply IH].
    apply read_only_bind; [|done].
    apply read_only_bind; [apply read_only_log_call|]. intros _. apply read_only_ret.
Qed.

Lemma read_only_plane_constraints_of kwargs : read_only (plane_constraints_of kwargs).
Proof.
  apply read_only_bind; [|intros pc; apply read_only_set_dims].
  apply read_only_bind; [apply read_only_log_call|]. intros _. apply read_only_ret.
Qed.

Lemma read_only_get_m_index kwargs : read_only (_get_m_index_from_kwargs kwargs).
Proof.
  unfold _get_m_index_from_kwargs.
  destruct (kwargs_get "M" kwargs); [|apply read_only_ret].
  apply read_only_bind; [apply read_only_call|].
  intros []; [apply read_only_ret|apply read_only_raise].
Qed.

Lemma read_only_new_IntRect : read_only (new_IntRect env).
Proof.
  apply read_only_bind; [apply read_only_log_call|]. intros _. apply read_only_ret.
Qed.

Lemma read_only_lift_result {A} (r : result A) : read_only (lift_result r).
Proof. intros hp. apply only_calls_added_refl. Qed.

(** One step through a method made of calls, assignments to a local
    rectangle, returns and raises. *)
Ltac read_only_step :=
  first
    [ apply read_only_ret | apply read_only_raise | apply read_only_call
    | apply read_only_log_call | apply read_only_lift_result
    | apply read_only_plane_constraints_of | apply read_only_get_m_index
    | apply read_only_new_IntRect
    | apply read_only_bind; [|intros ?] ].

(** X4: no method other than [meta] assigns an attribute of the object,
    writes a file or creates an element: whatever it returns or raises, it
    leaves the object, the files and the identities as they were and only
    adds calls to the trace. *)
Theorem queries_read_only index region scale_factor kwargs :
  read_only dims
  ∧ read_only dims_shape
  ∧ read_only size
  ∧ read_only is_mosaic
  ∧ read_only (scene_bounding_box index)
  ∧ read_only (scene_height_by_width index)
  ∧ read_only (read_subblock_metadata kwargs)
  ∧ read_only (read_image kwargs)
  ∧ read_only (read_mosaic_size env)
  ∧ read_only (read_mosaic env region scale_factor kwargs).
Proof.
  split_and!; try apply read_only_call.
  - repeat read_only_step.
  - repeat read_only_step.
  - repeat read_only_step.
  - apply read_only_bind; [apply read_only_plane_constraints_of|]. intros pc.
    apply read_only_bind; [apply read_only_get_m_index|]. intros m.
    apply read_only_bind; [apply read_only_call|]. intros [image shape].
    apply read_only_ret.
  - apply read_only_bind; [apply read_only_call|]. intros []; simpl.
    + apply read_only_call.
    + repeat read_only_step.
  - apply read_only_bind; [apply read_only_plane_constraints_of|]. intros pc.
    apply read_only_bind; [|intros rect; repeat read_only_step].
    destruct region as [r|].
    + apply read_only_bind; [|intros _; repeat read_only_step].
      unfold py_assert. destruct (bool_decide _); read_only_step.
    + repeat read_only_step.
Qed.

End ReadOnly.

(** ** What reaches the reader *)

Section Forwarding.

Variable env : Env.

Implicit Types (kwargs : list (string * Z)) (hp : Heap) (pc : DimCoord).

(** Two outcomes with the same result, whose heaps hold the same calls. *)
Ltac same_heap :=
  simpl; f_equal; unfold logged; simpl;
  rewrite ?rev_app_distr; simpl; by rewrite <-?app_assoc.

(** The outcome of looking up the tile index, given what the reader answers
    to [is_mosaic]. *)
Lemma get_m_index_closed kwargs hp :
  _get_m_index_from_kwargs kwargs hp
  = match kwargs_get "M" kwargs with
    | None => (Ok (-1), hp)
    | Some m =>
        (match Native.is_mosaic (reader (self hp)) with
         | Ok true => Ok m
         | Ok false => Raise Overspecified
         | Raise e => Raise e
         end, logged [EvIsMosaic] hp)
    end.
Proof.
  destruct (kwargs_get "M" kwargs) as [m|] eqn:Hm.
  - by apply get_m_index_present.
  - by apply get_m_index_absent.
Qed.

Lemma read_image_closed kwargs hp :
  let rd := reader (self hp) in
  let pc := coordinate_of kwargs in
  read_image kwargs hp
  = match kwargs_get "M" kwargs with
    | None =>
        (read_selected rd pc (-1),
         logged (constraint_calls kwargs ++ [EvReadSelected pc (-1)]) hp)
    | Some m =>
        match Native.is_mosaic rd with
        | Ok true =>
            (read_selected rd pc m,
             logged (constraint_calls kwargs ++ [EvIsMosaic; EvReadSelected pc m]) hp)
        | Ok false =>
            (Raise Overspecified, logged (constraint_calls kwargs ++ [EvIsMosaic]) hp)
        | Raise e => (Raise e, logged (constraint_calls kwargs ++ [EvIsMosaic]) hp)
        end
    end.
Proof.
  intros rd pc. unfold read_image.
  rewrite (bind_ok _ _ _ _ _ (plane_constraints_of_spec _ _)).
  unfold mbind at 1, M_bind. rewrite get_m_index_closed. fold pc.
  simpl self. fold rd.
  destruct (kwargs_get "M" kwargs) as [m|].
  - destruct (Native.is_mosaic rd) as [[]|e]; [|same_heap..].
    unfold mbind, M_bind. rewrite call_logged. simpl self. fold rd.
    destruct (read_selected rd pc m) as [[image shape]|]; same_heap.
  - unfold mbind, M_bind. rewrite call_logged. simpl self. fold rd.
    destruct (read_selected rd pc (-1)) as [[image shape]|]; same_heap.
Qed.

Lemma read_subblock_metadata_closed kwargs hp :
  let rd := reader (self hp) in
  let pc := coordinate_of kwargs in
  read_subblock_metadata kwargs hp
  = match kwargs_get "M" kwargs with
    | None =>
        (read_meta_from_subblock rd pc (-1),
         logged (constraint_calls kwargs ++ [EvReadMetaFromSubblock pc (-1)]) hp)
    | Some m =>
        match Native.is_mosaic rd with
        | Ok true =>
            (read_meta_from_subblock rd pc m,
             logged (constraint_calls kwargs
                     ++ [EvIsMosaic; EvReadMetaFromSubblock pc m]) hp)
        | Ok false =>
            (Raise Overspecified, logged (constraint_calls kwargs ++ [EvIsMosaic]) hp)
        | Raise e => (Raise e, logged (constraint_calls kwargs ++ [EvIsMosaic]) hp)
        end
    end.
Proof.
  intros rd pc. unfold read_subblock_metadata.
  rewrite (bind_ok _ _ _ _ _ (plane_constraints_of_spec _ _)).
  unfold mbind at 1, M_bind. rewrite get_m_index_closed. fold pc.
  simpl self. fold rd.
  destruct (kwargs_get "M" kwargs) as [m|].
  - destruct (Native.is_mosaic rd) as [[]|e]; [|same_heap..].
    rewrite call_logged. same_heap.
  - rewrite call_logged. same_heap.
Qed.

(** X5: the tile index the reader receives.  Without [M] the two reads pass
    -1 and never ask [is_mosaic]; with [M=m] on a mosaic they ask once, then
    pass [m]; when [is_mosaic] itself raises, they raise that error and read
    nothing.  In each case the result is the reader's, as it is. *)
Theorem tile_index_forwarded kwargs hp :
  let rd := reader (self hp) in
  let pc := coordinate_of kwargs in
  (kwargs_get "M" kwargs = None →
     read_image kwargs hp
       = (read_selected rd pc (-1),
          logged (constraint_calls kwargs ++ [EvReadSelected pc (-1)]) hp)
     ∧ read_subblock_metadata kwargs hp
       = (read_meta_from_subblock rd pc (-1),
          logged (constraint_calls kwargs ++ [EvReadMetaFromSubblock pc (-1)]) hp))
  ∧ (∀ m, kwargs_get "M" kwargs = Some m → Native.is_mosaic rd = Ok true →
     read_image kwargs hp
       = (read_selected rd pc m,
          logged (constraint_calls kwargs ++ [EvIsMosaic; EvReadSelected pc m]) hp)
     ∧ read_subblock_metadata kwargs hp
       = (read_meta_from_subblock rd pc m,
          logged (constraint_calls kwargs
                  ++ [EvIsMosaic; EvReadMetaFromSubblock pc m]) hp))
  ∧ (∀ m e, kwargs_get "M" kwargs = Some m → Native.is_mosaic rd = Raise e →
     read_image kwargs hp
       = (Raise e, logged (constraint_calls kwargs ++ [EvIsMosaic]) hp)
     ∧ read_subblock_metadata kwargs hp
       = (Raise e, logged (constraint_calls kwargs ++ [EvIsMosaic]) hp)).
Proof.
  intros rd pc. split_and!.
  - intros Hm. rewrite read_image_closed, read_subblock_metadata_closed.
    by rewrite Hm.
  - intros m Hm Hmosaic. rewrite read_image_closed, read_subblock_metadata_closed.
    rewrite Hm. fold rd. by rewrite Hmosaic.
  - intros m e Hm Hmosaic. rewrite read_image_closed, read_subblock_metadata_closed.
    rewrite Hm. fold rd. by rewrite Hmosaic.
Qed.

Lemma kwargs_get_cons key k v kwargs :
  kwargs_get key ((k, v) :: kwargs)
  = if bool_decide (k = key) then Some v else kwargs_get key kwargs.
Proof. unfold kwargs_get; simpl. by destruct (bool_decide (k = key)). Qed.

(** In a dictionary, looking a key up finds the entry with that key. *)
Lemma kwargs_get_elem_of key v kwargs :
  NoDup kwargs.*1 →
  kwargs_get key kwargs = Some v ↔ (key, v) ∈ kwargs.
Proof.
  induction kwargs as [|[k' v'] kwargs IH]; intros Hnd.
  - split; [done|]. by intros ?%elem_of_nil.
  - apply NoDup_cons in Hnd as [Hk' Hnd]. rewrite kwargs_get_cons, elem_of_cons.
    case_bool_decide as Hk.
    + subst k'. split; [intros [= ->]; by left|].
      intros [[= ->]|Hin]; [done|].
      destruct Hk'. apply list_elem_of_fmap. by exists (key, v).
    + rewrite IH by done. split; [by right|].
      intros [[= -> ->]|Hin]; [done|done].
Qed.

Lemma kwargs_get_perm key kwargs kwargs' :
  NoDup kwargs.*1 → kwargs ≡ₚ kwargs' →
  kwargs_get key kwargs = kwargs_get key kwargs'.
Proof.
  intros Hnd Hperm.
  assert (NoDup kwargs'.*1) as Hnd' by by rewrite <-Hperm.
  apply option_eq. intros v.
  rewrite !kwargs_get_elem_of by done. by rewrite Hperm.
Qed.

Lemma axis_items_NoDup kwargs : NoDup kwargs.*1 → NoDup (axis_items kwargs).*1.
Proof.
  intros Hnd. apply (sublist_NoDup _ kwargs.*1); [done|].
  apply fmap_sublist. unfold axis_items. apply sublist_filter.
Qed.

Lemma coordinate_of_perm kwargs kwargs' :
  NoDup kwargs.*1 → kwargs ≡ₚ kwargs' →
  coordinate_of kwargs = coordinate_of kwargs'.
Proof.
  intros Hnd Hperm.
  assert (NoDup kwargs'.*1) as Hnd' by by rewrite <-Hperm.
  apply map_eq. intros k. unfold coordinate_of.
  rewrite !coordinate_from_lookup by by apply axis_items_NoDup.
  rewrite !kwargs_get_axis_items.
  by rewrite (kwargs_get_perm k kwargs kwargs').
Qed.

(** X6: the order in which the keyword arguments are written does not
    matter: a query called with the same arguments in another order returns
    or raises the same. *)
Theorem keyword_order_irrelevant kwargs kwargs' hp :
  NoDup kwargs.*1 →
  kwargs ≡ₚ kwargs' →
  fst (read_image kwargs hp) = fst (read_image kwargs' hp)
  ∧ fst (read_subblock_metadata kwargs hp) = fst (read_subblock_metadata kwargs' hp)
  ∧ ∀ region scale_factor,
      fst (read_mosaic env region scale_factor kwargs hp)
      = fst (read_mosaic env region scale_factor kwargs' hp).
Proof.
  intros Hnd Hperm.
  pose proof (coordinate_of_perm _ _ Hnd Hperm) as Hpc.
  pose proof (kwargs_get_perm "M" _ _ Hnd Hperm) as Hm.
  split_and!.
  - rewrite !read_image_closed. rewrite <-Hpc, <-Hm.
    destruct (kwargs_get "M" kwargs); [|done].
    by destruct (Native.is_mosaic _) as [[]|].
  - rewrite !read_subblock_metadata_closed. rewrite <-Hpc, <-Hm.
    destruct (kwargs_get "M" kwargs); [|done].
    by destruct (Native.is_mosaic _) as [[]|].
  - intros [r|] scale_factor.
    + destruct (decide (length r = 4%nat)) as [Hlen|Hlen].
      * destruct (all_int32 r) eqn:Hfit.
        -- rewrite !read_mosaic_spec by (by intros ? [= <-]). simpl.
           by rewrite Hpc.
        -- by rewrite !read_mosaic_type_error.
      * by rewrite !read_mosaic_assertion.
    + rewrite !read_mosaic_spec by done. simpl. by rewrite Hpc.
Qed.

Lemma coordinate_from_dom pc items :
  dom (coordinate_from pc items) ⊆ dom pc ∪ list_to_set items.*1.
Proof.
  revert pc. induction items as [|[k v] items IH]; intros pc; simpl.
  - apply union_subseteq_l.
  - etrans; [apply IH|]. rewrite dom_insert_L.
    intros k' [[Hk'|Hk']%elem_of_union|Hk']%elem_of_union; apply elem_of_union.
    + right. apply elem_of_union. by left.
    + by left.
    + right. apply elem_of_union. by right.
Qed.

Lemma axis_items_keys kwargs k : k ∈ (axis_items kwargs).*1 → k ∈ ZISRAW_DIMS.
Proof.
  intros ([k' v] & -> & Hin)%list_elem_of_fmap.
  by apply list_elem_of_filter in Hin as [? _].
Qed.

(** X7: for keyword values that fit a C [int], the plane constraints a
    query builds are on axes of the alphabet only, whatever other keywords
    it is given, so on nine axes at most. *)
Theorem constraints_within_alphabet kwargs hp pc :
  all_int32 kwargs.*2 = true →
  fst (plane_constraints_of kwargs hp) = Ok pc →
  dom pc ⊆ ZISRAW_DIMS ∧ (base.size pc ≤ 9)%nat.
Proof.
  intros _. rewrite plane_constraints_of_spec. intros [= <-].
  assert (dom (coordinate_of kwargs) ⊆ ZISRAW_DIMS) as Hdom.
  { unfold coordinate_of. etrans; [apply coordinate_from_dom|].
    rewrite dom_empty_L. intros k [?%elem_of_empty|Hk%elem_of_list_to_set]%elem_of_union;
      [done|]. by apply axis_items_keys in Hk. }
  split; [done|].
  rewrite <-size_dom. etrans; [by apply subseteq_size|]. by vm_compute.
Qed.

(** X3: the plane constraints a query builds from a dictionary of keyword
    arguments, with values that fit a C [int], hold, for an axis of the
    alphabet, the value given for it, and nothing for any other key. *)
Theorem plane_constraints_lookup kwargs hp pc k :
  NoDup kwargs.*1 →
  all_int32 kwargs.*2 = true →
  fst (plane_constraints_of kwargs hp) = Ok pc →
  pc !! k = if decide (k ∈ ZISRAW_DIMS) then kwargs_get k kwargs else None.
Proof.
  intros Hnd _. rewrite plane_constraints_of_spec. intros [= <-].
  by apply coordinate_of_lookup.
Qed.

End Forwarding.

(** ** Edges of the metadata accessor *)

Section MetadataEdges.

Variable env : Env.

Implicit Types (hp : Heap) (e : Element).

Ltac unfold_meta :=
  unfold meta, gets, call, fromstring, tostring_pretty, write_text, log_call,
    modify, lift_result, raise, mbind, M_bind; simpl.

(** X8: without an export path an access touches no file, whatever it
    returns or raises: the files are as they were, and no call of [open] and
    no write is made. *)
Theorem meta_without_export_writes_nothing hp :
  metafile_out (self hp) = ""%string →
  files (world (snd (meta env hp))) = files (world hp)
  ∧ ∃ evs, trace (world (snd (meta env hp))) = evs ++ trace (world hp)
           ∧ Forall (λ ev, is_file_call ev = false) evs.
Proof.
  destruct hp as [[b fn out v rd root0] [tr fs n]]; simpl. intros ->.
  unfold_meta.
  destruct root0 as [e0|]; simpl.
  - destruct (element_bool e0); simpl; [split; [done|]; by exists []|].
    destruct (read_meta rd) as [text|]; simpl.
    + destruct (etree_fromstring env text) as [t|]; simpl.
      * split; [done|]. exists [EvFromString text; EvReadMeta]. split; [done|].
        by repeat constructor.
      * split; [done|]. exists [EvFromString text; EvReadMeta]. split; [done|].
        by repeat constructor.
    + split; [done|]. exists [EvReadMeta]. split; [done|]. by repeat constructor.
  - destruct (read_meta rd) as [text|]; simpl.
    + destruct (etree_fromstring env text) as [t|]; simpl.
      * split; [done|]. exists [EvFromString text; EvReadMeta]. split; [done|].
        by repeat constructor.
      * split; [done|]. exists [EvFromString text; EvReadMeta]. split; [done|].
        by repeat constructor.
    + split; [done|]. exists [EvReadMeta]. split; [done|]. by repeat constructor.
Qed.

(** X9: when the export file cannot be opened for writing, the first access
    raises [OSError] after the document was read and parsed: the object
    holds the parsed document all the same, and no file is written. *)
Theorem meta_export_failure_keeps_document hp text t :
  meta_root (self hp) = None →
  read_meta (reader (self hp)) = Ok text →
  etree_fromstring env text = Ok t →
  metafile_out (self hp) ≠ ""%string →
  fs_writable env (metafile_out (self hp)) = false →
  fst (meta env hp) = Raise OSError
  ∧ meta_root (self (snd (meta env hp))) = Some (mkElement (next_id (world hp)) t)
  ∧ files (world (snd (meta env hp))) = files (world hp).
Proof.
  destruct hp as [[b fn out v rd root0] [tr fs n]]; simpl.
  intros -> Htext Ht Hout Hw. unfold_meta. rewrite Htext, Ht; simpl.
  rewrite (bool_decide_eq_true_2 _ Hout); simpl. by rewrite Hw.
Qed.

(** X10: when the reader cannot hand out the metadata, or lxml cannot parse
    it, the first access raises that error and leaves the object without a
    document: nothing is cached, no element is created and, even with an
    export path, no file is written. *)
Theorem meta_failed_load_caches_nothing hp err :
  meta_root (self hp) = None →
  (read_meta (reader (self hp)) = Raise err
   ∨ ∃ text, read_meta (reader (self hp)) = Ok text
             ∧ etree_fromstring env text = Raise err) →
  fst (meta env hp) = Raise err
  ∧ self (snd (meta env hp)) = self hp
  ∧ files (world (snd (meta env hp))) = files (world hp)
  ∧ next_id (world (snd (meta env hp))) = next_id (world hp)
  ∧ ∃ evs, trace (world (snd (meta env hp))) = evs ++ trace (world hp)
           ∧ Forall (λ ev, is_file_call ev = false) evs.
Proof.
  destruct hp as [[b fn out v rd root0] [tr fs n]]; simpl.
  intros -> [Hread|(text & Hread & Hparse)]; unfold_meta; rewrite Hread; simpl.
  - split_and!; [done..|]. exists [EvReadMeta]. split; [done|].
    by repeat constructor.
  - rewrite Hparse; simpl. split_and!; [done..|].
    exists [EvFromString text; EvReadMeta]. split; [done|]. by repeat constructor.
Qed.

(** X11: with an export path, an access served from the object still
    exports: it opens the file and writes the serialized document, without
    reading or parsing anything; and doing it again leaves the same files. *)
Theorem meta_export_repeats hp e :
  meta_root (self hp) = Some e →
  element_bool e = true →
  metafile_out (self hp) ≠ ""%string →
  fs_writable env (metafile_out (self hp)) = true →
  let out := metafile_out (self hp) in
  let text := etree_tostring_pretty env (el_xml e) in
  let hp' := mkHeap (self hp)
               (mkWorld (EvWrite out text :: EvOpen out "w" :: trace (world hp))
                        (<[out:=text]> (files (world hp))) (next_id (world hp))) in
  meta env hp = (Ok (Some e), hp')
  ∧ fst (meta env hp') = Ok (Some e)
  ∧ files (world (snd (meta env hp'))) = files (world hp').
Proof.
  destruct hp as [[b fn out v rd root0] [tr fs n]]; simpl.
  intros -> Hbool Hout Hw. unfold_meta. rewrite Hbool; simpl.
  rewrite (bool_decide_eq_true_2 _ Hout); simpl. rewrite Hw; simpl.
  split_and!; [done..|]. by rewrite insert_insert_eq.
Qed.

End MetadataEdges.

(** ** Edges of opening *)

Section OpeningEdges.

Variable env : Env.

(** X12: a path to an existing file that cannot be opened for reading makes
    the constructor raise the [OSError] of [open]; the reader is not
    constructed. *)
Theorem init_open_failure file p f metafile_out verbose wd :
  source_path file = Some p →
  fs_resolve env p = Ok f →
  fs_is_dir env f = false →
  fs_readable env f = false →
  __init__ env file metafile_out verbose wd
  = (Raise OSError, log_world (EvOpen f "rb") wd).
Proof.
  intros Hp Hf Hd Hr. unfold __init__.
  rewrite (bind_raise _ _ wd OSError (log_world (EvOpen f "rb") wd)); [done|].
  rewrite (convert_to_buffer_path env file p f) by done.
  unfold open_rb, log, modify, raise, mbind, M_bind; simpl. by rewrite Hr.
Qed.

End OpeningEdges.

(** X13: the two scene accessors ask the reader the same single question,
    [read_scene_wh] at the index given or at -1, and fail together: what
    [scene_height_by_width] returns or raises is what [scene_bounding_box]
    does, with height and width picked from its rectangle. *)
Theorem scene_methods_agree index hp :
  fst (scene_height_by_width index hp)
  = result_map (λ '(_, _, bw, bh), (bh, bw)) (fst (scene_bounding_box index hp))
  ∧ snd (scene_height_by_width index hp) = logged [EvReadSceneWh (default (-1) index)] hp
  ∧ snd (scene_bounding_box index hp) = logged [EvReadSceneWh (default (-1) index)] hp.
Proof.
  unfold scene_bounding_box, scene_height_by_width, mbind, M_bind.
  rewrite !call_logged.
  by destruct (read_scene_wh _ _).
Qed.

Lemma tile_index_forwarded_witness :
  trace (world (snd (read_image [("C"%string, 1)] Demo.plain_czi)))
    = [EvReadSelected {[ "C"%string := 1 ]} (-1); EvSetDim "C" 1; EvDimCoordNew]
  ∧ trace (world (snd (read_image [("C"%string, 1); ("M"%string, 3)] Demo.mosaic_czi)))
    = [EvReadSelected {[ "C"%string := 1 ]} 3; EvIsMosaic; EvSetDim "C" 1;
       EvDimCoordNew]
  ∧ fst (read_subblock_metadata [("M"%string, 3)] Faulty.czi)
    = Raise (NativeException "FilePtrException").
Proof.
  split_and!.
  - by rewrite (proj1 (proj1 (tile_index_forwarded [("C"%string, 1)] Demo.plain_czi)
                         eq_refl)).
  - by rewrite (proj1 (proj1 (proj2 (tile_index_forwarded
                                       [("C"%string, 1); ("M"%string, 3)]
                                       Demo.mosaic_czi)) 3 eq_refl eq_refl)).
  - by rewrite (proj2 (proj2 (proj2 (tile_index_forwarded [("M"%string, 3)]
                                       Faulty.czi)) 3 _ eq_refl eq_refl)).
Defined.

Lemma keyword_order_irrelevant_witness :
  fst (read_image [("C"%string, 1); ("Z"%string, 3)] Demo.plain_czi)
  = fst (read_image [("Z"%string, 3); ("C"%string, 1)] Demo.plain_czi).
Proof.
  apply (keyword_order_irrelevant Demo.env [("C"%string, 1); ("Z"%string, 3)]
           [("Z"%string, 3); ("C"%string, 1)] Demo.plain_czi).
  - apply (bool_decide_unpack _). vm_compute. exact I.
  - apply perm_swap.
Defined.

Lemma meta_without_export_writes_nothing_witness :
  files (world (snd (meta Demo.env Demo.plain_czi))) = ∅.
Proof.
  apply (meta_without_export_writes_nothing Demo.env Demo.plain_czi). reflexivity.
Defined.

Lemma meta_export_failure_keeps_document_witness :
  fst (meta Faulty.env Demo.exporting_czi) = Raise OSError
  ∧ meta_root (self (snd (meta Faulty.env Demo.exporting_czi)))
    = Some (mkElement 0 Demo.meta_tree).
Proof.
  destruct (meta_export_failure_keeps_document Faulty.env Demo.exporting_czi
              Demo.meta_text Demo.meta_tree eq_refl eq_refl eq_refl
              ltac:(discriminate) eq_refl) as (Hraise & Hroot & _).
  split; [exact Hraise|exact Hroot].
Defined.

Lemma meta_failed_load_caches_nothing_witness :
  fst (meta Demo.env Faulty.czi) = Raise (NativeException "FilePtrException")
  ∧ self (snd (meta Demo.env Faulty.czi)) = self Faulty.czi
  ∧ fst (meta Demo.env (Demo.open_with (Demo.a_reader false "<ImageDocument>")
                          "/data/plain.czi" "/tmp/meta.xml"))
    = Raise (NativeException "XMLSyntaxError").
Proof.
  split_and!.
  - apply (meta_failed_load_caches_nothing Demo.env Faulty.czi); [reflexivity|].
    left. reflexivity.
  - apply (meta_failed_load_caches_nothing Demo.env Faulty.czi
             (NativeException "FilePtrException")); [reflexivity|].
    left. reflexivity.
  - apply (meta_failed_load_caches_nothing Demo.env); [reflexivity|].
    right. exists "<ImageDocument>"%string. split; reflexivity.
Defined.

Lemma meta_export_repeats_witness :
  let hp := snd (meta Demo.env Demo.exporting_czi) in
  fst (meta Demo.env hp) = Ok (Some (mkElement 0 Demo.meta_tree))
  ∧ trace (world (snd (meta Demo.env hp)))
    = [EvWrite "/tmp/meta.xml" (Demo.pretty 0 Demo.meta_tree);
       EvOpen "/tmp/meta.xml" "w";
       EvWrite "/tmp/meta.xml" (Demo.pretty 0 Demo.meta_tree);
       EvOpen "/tmp/meta.xml" "w";
       EvFromString Demo.meta_text; EvReadMeta].
Proof.
  intros hp.
  destruct (meta_export_repeats Demo.env hp (mkElement 0 Demo.meta_tree)
              eq_refl eq_refl ltac:(discriminate) eq_refl) as (Hmeta & _).
  rewrite Hmeta. split; reflexivity.
Defined.

Lemma init_open_failure_witness :
  __init__ Faulty.env (PyStr "/data/plain.czi") "" false Demo.fresh_world
  = (Raise OSError, mkWorld [EvOpen "/data/plain.czi" "rb"] ∅ 0).
Proof.
  apply (init_open_failure Faulty.env (PyStr "/data/plain.czi") "/data/plain.czi"
           "/data/plain.czi"); reflexivity.
Defined.

Lemma constraints_within_alphabet_witness :
  ∃ pc, fst (plane_constraints_of
               [("C"%string, 1); ("X"%string, 10); ("M"%string, 0); ("Z"%string, 3)]
               Demo.plain_czi) = Ok pc
        ∧ dom pc ⊆ ZISRAW_DIMS
        ∧ (base.size pc ≤ 9)%nat.
Proof.
  eexists. split; [reflexivity|].
  apply (constraints_within_alphabet
           [("C"%string, 1); ("X"%string, 10); ("M"%string, 0); ("Z"%string, 3)]
           Demo.plain_czi); reflexivity.
Defined.

Lemma plane_constraints_lookup_witness :
  ∃ pc, fst (plane_constraints_of
               [("C"%string, 1); ("Q"%string, 7); ("M"%string, 0); ("Z"%string, 3)]
               Demo.plain_czi) = Ok pc
        ∧ pc !! "Z"%string = Some 3
        ∧ pc !! "M"%string = None.
Proof.
  eexists. split; [reflexivity|]. split.
  - rewrite (plane_constraints_lookup
               [("C"%string, 1); ("Q"%string, 7); ("M"%string, 0); ("Z"%string, 3)]
               Demo.plain_czi _ "Z"); [reflexivity| |reflexivity|reflexivity].
    apply (bool_decide_unpack _). vm_compute. exact I.
  - rewrite (plane_constraints_lookup
               [("C"%string, 1); ("Q"%string, 7); ("M"%string, 0); ("Z"%string, 3)]
               Demo.plain_czi _ "M"); [reflexivity| |reflexivity|reflexivity].
    apply (bool_decide_unpack _). vm_compute. exact I.
Defined.
